(** * kachi: recovering the target of a protected link

    A shallow embedding of [kachi/schemas.py] and [kachi/main.py].

    Conventions.
    - A Python [str] is a Rocq [string] holding its UTF-8 encoding, one
      [ascii] per byte.  Every operation the program performs on text
      itself (equality, concatenation, the tests on the first and last
      character, the slice [raw[1:-1]], the replacement of one ASCII
      character by another) gives the same answer on the encoded form; the
      test [len(raw) >= 2] is only made together with the tests that [raw]
      starts and ends with a slash, where counting bytes and counting
      characters agree.
    - Python's [None] in a [str | None] is [option]'s [None].
    - An exception is a value of [exception]; a call that may raise
      returns a [result].
    - The calls into Python's standard library ([re], [urllib.parse],
      [html], [base64]) are not code of this program: they are the fields
      of the class [PyLib], and every general theorem holds for every
      instance.  [PyRef] is an executable instance used to run the program
      on concrete links. *)

From Stdlib Require Import String Ascii List Bool Arith NArith Lia.
From stdpp Require Import gmap strings list.

Local Open Scope string_scope.
Local Open Scope list_scope.

(** ** Exceptions and results *)

(** The exception classes that the program and the library calls raise;
    [msg] is the constant part of the message ([binascii.Error] and
    [UnicodeDecodeError] are subclasses of [ValueError] in Python). *)
Inductive exception : Type :=
| ValueError (msg : string)
| BinasciiError (msg : string)
| UnicodeDecodeError (msg : string)
| TypeError (msg : string)
| AttributeError (msg : string)
| IndexError (msg : string).

Inductive result (A : Type) : Type :=
| Ok (a : A)
| Raise (e : exception).

Arguments Ok {A} a.
Arguments Raise {A} e.

Definition bind {A B : Type} (c : result A) (k : A -> result B) : result B :=
  match c with
  | Ok a => k a
  | Raise e => Raise e
  end.

Notation "'let!' x ':=' c 'in' k" := (bind c (fun x => k))
  (at level 10, x name, c at level 100, k at level 200).

(** ** Text helpers (methods of [str]) *)

(** [s.startswith(p)] *)
Definition startswith (p s : string) : bool := String.prefix p s.

(** [s.endswith(p)] *)
Definition endswith (p s : string) : bool :=
  let n := String.length s in
  let k := String.length p in
  (k <=? n)%nat && String.eqb (String.substring (n - k) k s) p.

(** [s[1:-1]]: empty when [s] has fewer than two characters. *)
Definition slice_1_m1 (s : string) : string :=
  String.substring 1 (String.length s - 2) s.

(** [s.replace(old, new)] for one-character [old] and [new]. *)
Fixpoint replace_char (old new : ascii) (s : string) : string :=
  match s with
  | EmptyString => EmptyString
  | String c s' =>
      String (if Ascii.eqb c old then new else c) (replace_char old new s')
  end.

(** [chr(n)] for [n < 256], as encoded text: one byte below 128, the
    two-byte sequence [110xxxxx 10xxxxxx] from 128 on. *)
Definition chr (n : N) : string :=
  if (n <? 128)%N then String (ascii_of_N n) EmptyString
  else String (ascii_of_N (192 + n / 64))
         (String (ascii_of_N (128 + n mod 64)) EmptyString).

(** Value of one hexadecimal digit, as [int(_, 16)] reads it. *)
Definition hex_digit (c : ascii) : option N :=
  let n := N_of_ascii c in
  if ((48 <=? n) && (n <=? 57))%N then Some (n - 48)%N
  else if ((65 <=? n) && (n <=? 70))%N then Some (n - 55)%N
  else if ((97 <=? n) && (n <=? 102))%N then Some (n - 87)%N
  else None.

(** ** The standard library, as an interface *)

Definition bytes := list Byte.byte.

(** [urllib.parse.ParseResult], the six components of a parsed URL. *)
Module ParseResult.
Record t : Type := mk {
  scheme : string;
  netloc : string;
  path : string;
  params : string;
  query : string;
  fragment : string
}.
End ParseResult.

Class PyLib : Type := {
  (** [re.Pattern] and [re.Match] *)
  Pattern : Type;
  Match : Type;
  (** [re.compile(p)]; [None] when it raises [re.error] *)
  re_compile : string -> option Pattern;
  (** [p.groups] *)
  re_groups : Pattern -> nat;
  (** [p.search(s)] *)
  re_search : Pattern -> string -> option Match;
  (** [m.group(i)]: [IndexError] when there is no such group, [None] when
      the group took no part in the match *)
  re_group : Match -> nat -> result (option string);
  (** [urllib.parse.urlparse(url)]; raises [ValueError] on some inputs *)
  urlparse : string -> result ParseResult.t;
  (** the [hostname] property of a [ParseResult]: [None] when the URL has
      no host *)
  parsed_hostname : ParseResult.t -> option string;
  (** [urllib.parse.parse_qs(q)] *)
  parse_qs : string -> gmap string (list string);
  (** [html.unescape(s)] *)
  html_unescape : string -> string;
  (** [urllib.parse.unquote(s)] *)
  unquote : string -> string;
  (** [base64.b64decode(s)] *)
  b64decode : string -> result bytes;
  (** [b.decode()] *)
  bytes_decode : bytes -> result string
}.

(** [parsed or urlparse(url)]: a [ParseResult] is a six-field tuple and so
    is never falsy; only [None] falls through to [urlparse]. *)
Definition parsed_or_urlparse `{L : PyLib}
    (parsed : option ParseResult.t) (url : string) : result ParseResult.t :=
  match parsed with
  | Some p => Ok p
  | None => urlparse url
  end.

(** ** Matcher *)

Module Matcher.
Section defs.
Context `{L : PyLib}.

Record t : Type := mk {
  raw : string;
  is_regex : bool;
  pattern : string;
  _compiled : option Pattern
}.

(** [Matcher(raw)]: the dataclass constructor followed by [__post_init__]. *)
Definition post_init (raw : string) : result t :=
  if String.eqb raw "" then
    Raise (ValueError "matcher pattern must not be empty")
  else
    let is_regex :=
      (2 <=? String.length raw)%nat && startswith "/" raw && endswith "/" raw in
    let pattern := if is_regex then slice_1_m1 raw else raw in
    if is_regex then
      match re_compile pattern with
      | Some c => Ok (mk raw is_regex pattern (Some c))
      | None => Raise (ValueError "invalid regex")
      end
    else Ok (mk raw is_regex pattern None).

Definition matches (self : t) (value : string) : bool :=
  match _compiled self with
  | Some c =>
      match re_search c value with
      | Some _ => true
      | None => false
      end
  | None => String.eqb value (pattern self)
  end.

End defs.
End Matcher.

(** [_to_matchers(value)] for [value : str | list[str]]. *)
Fixpoint matchers_of_list `{L : PyLib} (vs : list string)
    : result (list Matcher.t) :=
  match vs with
  | [] => Ok []
  | v :: vs' =>
      let! m := Matcher.post_init v in
      let! ms := matchers_of_list vs' in
      Ok (m :: ms)
  end.

Definition _to_matchers `{L : PyLib} (value : string + list string)
    : result (list Matcher.t) :=
  match value with
  | inl s => matchers_of_list [s]
  | inr vs => matchers_of_list vs
  end.

(** ** Filter *)

Module Filter.
Section defs.
Context `{L : PyLib}.

Record t : Type := mk {
  hostname : list Matcher.t;
  path : list Matcher.t
}.

Definition post_init (hostname path : list Matcher.t) : result t :=
  match hostname with
  | [] => Raise (ValueError "at least one hostname matcher is required")
  | _ => Ok (mk hostname path)
  end.

(** [any(m.matches(v) for m in ms)] *)
Definition any_matches (ms : list Matcher.t) (v : string) : bool :=
  existsb (fun m => Matcher.matches m v) ms.

(** The body of [matches] once [parsed] is in hand. *)
Definition matches_parsed (self : t) (parsed : ParseResult.t) : bool :=
  let host := default "" (parsed_hostname parsed) in
  if negb (any_matches (hostname self) host) then false
  else
    match path self with
    | [] => true
    | _ => any_matches (path self) (ParseResult.path parsed)
    end.

Definition matches (self : t) (url : string) (parsed : option ParseResult.t)
    : result bool :=
  let! parsed := parsed_or_urlparse parsed url in
  Ok (matches_parsed self parsed).

End defs.
End Filter.

(** The condition of the specification on a parsed URL. *)
Definition Filter_condition `{L : PyLib} (F : Filter.t) (parsed : ParseResult.t) : Prop :=
  (exists m, In m (Filter.hostname F)
             /\ Matcher.matches m (default "" (parsed_hostname parsed)) = true)
  /\ (Filter.path F = []
      \/ exists m, In m (Filter.path F)
                   /\ Matcher.matches m (ParseResult.path parsed) = true).

(** ** Transform *)

Definition _VALID_TRANSFORM_NAMES : list string :=
  ["html_unescape"; "url_decode"; "base64_decode"; "prepend";
   "proofpoint_v2_decode"].

Definition _PARAMETERIZED_TRANSFORMS : list string := ["prepend"].

(** [v is not None] *)
Definition is_not_None {A : Type} (v : option A) : bool :=
  match v with
  | Some _ => true
  | None => false
  end.

(** [name in names] for a frozenset of names *)
Definition name_in (name : string) (names : list string) : bool :=
  existsb (String.eqb name) names.

(** [_PROOFPOINT_V2_RE.sub(lambda m: chr(int(m.group(1), 16)), value)] for
    [_PROOFPOINT_V2_RE = re.compile(r"-([0-9A-Fa-f]{2})")]: the text is
    scanned from the left; where a hyphen is followed by two hexadecimal
    digits the three characters are replaced and the scan resumes after
    them, any other character is copied. *)
Fixpoint _PROOFPOINT_V2_RE_sub (value : string) : string :=
  match value with
  | EmptyString => EmptyString
  | String c rest =>
      if Ascii.eqb c "-" then
        match rest with
        | String a (String b rest') =>
            match hex_digit a, hex_digit b with
            | Some x, Some y =>
                chr (16 * x + y)%N +:+ _PROOFPOINT_V2_RE_sub rest'
            | _, _ => String c (_PROOFPOINT_V2_RE_sub rest)
            end
        | _ => String c (_PROOFPOINT_V2_RE_sub rest)
        end
      else String c (_PROOFPOINT_V2_RE_sub rest)
  end.

(** Where [_PROOFPOINT_V2_RE] matches at the head of [s]: the number spelt
    by its group and the text after the match. *)
Definition _PROOFPOINT_V2_RE_match (s : string) : option (N * string) :=
  match s with
  | String c (String a (String b rest)) =>
      if Ascii.eqb c "-" then
        match hex_digit a, hex_digit b with
        | Some x, Some y => Some ((16 * x + y)%N, rest)
        | _, _ => None
        end
      else None
  | _ => None
  end.

Module Transform.
Section defs.
Context `{L : PyLib}.

Record t : Type := mk {
  name : string;
  value : option string
}.

Definition post_init (name : string) (value : option string) : result t :=
  if negb (name_in name _VALID_TRANSFORM_NAMES) then
    Raise (ValueError "unknown transform")
  else if name_in name _PARAMETERIZED_TRANSFORMS && negb (is_not_None value)
  then Raise (ValueError "transform requires a value")
  else if negb (name_in name _PARAMETERIZED_TRANSFORMS) && is_not_None value
  then Raise (ValueError "transform does not accept a value")
  else Ok (mk name value).

(** [call(self, value)]; the argument is named [text] here, [value] being
    the field. *)
Definition call (self : t) (text : string) : result string :=
  if String.eqb (name self) "html_unescape" then Ok (html_unescape text)
  else if String.eqb (name self) "url_decode" then Ok (unquote text)
  else if String.eqb (name self) "base64_decode" then
    let! b := b64decode text in
    bytes_decode b
  else if String.eqb (name self) "prepend" then
    match value self with
    | Some v => Ok (v +:+ text)
    | None => Raise (TypeError "unsupported operand type(s) for +")
    end
  else if String.eqb (name self) "proofpoint_v2_decode" then
    let decoded := _PROOFPOINT_V2_RE_sub text in
    Ok (replace_char "_" "/" decoded)
  else Raise (ValueError "unknown transform").

(** [for t in ts: s = t.call(s)] *)
Fixpoint call_all (ts : list t) (s : string) : result string :=
  match ts with
  | [] => Ok s
  | t :: ts' =>
      let! s' := call t s in
      call_all ts' s'
  end.

End defs.
End Transform.

(** ** Extract *)

Inductive ExtractSource : Type := QUERY_PARAM | PATH_REGEX | URL_REGEX.

Inductive ParamSelect : Type := FIRST | LAST.

Module Extract.
Section defs.
Context `{L : PyLib}.

Record t : Type := mk {
  source : ExtractSource;
  keys : list string;
  pattern : option string;
  select : ParamSelect;
  _compiled_pattern : option Pattern
}.

Definition post_init (source : ExtractSource) (keys : list string)
    (pattern : option string) (select : ParamSelect) : result t :=
  match source with
  | QUERY_PARAM =>
      match keys, pattern with
      | [], _ => Raise (ValueError "'keys' is required")
      | _, Some _ => Raise (ValueError "'pattern' is not allowed")
      | _, None => Ok (mk source keys pattern select None)
      end
  | PATH_REGEX | URL_REGEX =>
      match pattern, keys with
      | None, _ => Raise (ValueError "'pattern' is required")
      | Some _, _ :: _ => Raise (ValueError "'keys' is not allowed")
      | Some p, [] =>
          match re_compile p with
          | None => Raise (ValueError "invalid pattern")
          | Some c =>
              if (re_groups c <? 1)%nat then
                Raise (ValueError
                         "pattern must contain at least one capture group")
              else Ok (mk source keys pattern select (Some c))
          end
      end
  end.

(** The loop over [self.keys]: [qs.get(key, [])], the first key with a
    non-empty list decides. *)
Fixpoint select_value (qs : gmap string (list string)) (select : ParamSelect)
    (keys : list string) : option string :=
  match keys with
  | [] => None
  | key :: keys' =>
      let values := default [] (qs !! key) in
      match values with
      | [] => select_value qs select keys'
      | v0 :: _ =>
          Some (match select with
                | FIRST => v0
                | LAST => List.last values v0
                end)
      end
  end.

(** [m.group(1) if m else None] after [self._compiled_pattern.search(s)] *)
Definition search_group1 (self : t) (s : string) : result (option string) :=
  match _compiled_pattern self with
  | None => Raise (AttributeError "'NoneType' object has no attribute 'search'")
  | Some c =>
      match re_search c s with
      | Some m => re_group m 1
      | None => Ok None
      end
  end.

Definition call (self : t) (url : string) (parsed : option ParseResult.t)
    : result (option string) :=
  let! parsed := parsed_or_urlparse parsed url in
  match source self with
  | QUERY_PARAM =>
      let qs := parse_qs (ParseResult.query parsed) in
      Ok (select_value qs (select self) (keys self))
  | PATH_REGEX => search_group1 self (ParseResult.path parsed)
  | URL_REGEX => search_group1 self url
  end.

End defs.
End Extract.

(** ** Rule *)

Module Rule.
Section defs.
Context `{L : PyLib}.

Record t : Type := mk {
  name : string;
  filter : Filter.t;
  extract : Extract.t;
  pre_extract : list Transform.t;
  post_extract : list Transform.t
}.

Definition post_init (name : string) (filter : Filter.t) (extract : Extract.t)
    (pre_extract post_extract : list Transform.t) : result t :=
  if String.eqb name "" then Raise (ValueError "rule name must not be empty")
  else Ok (mk name filter extract pre_extract post_extract).

Definition call (self : t) (url : string) (parsed : option ParseResult.t)
    : result (option string) :=
  let! parsed := parsed_or_urlparse parsed url in
  let! matched := Filter.matches (filter self) url (Some parsed) in
  if negb matched then Ok None
  else
    let! url := Transform.call_all (pre_extract self) url in
    let! result :=
      Extract.call (extract self) url
        (match pre_extract self with
         | [] => Some parsed
         | _ => None
         end) in
    match result with
    | None => Ok None
    | Some result =>
        let! result := Transform.call_all (post_extract self) result in
        Ok (Some result)
    end.

End defs.
End Rule.

(** ** RuleSet *)

Module RuleSet.
Section defs.
Context `{L : PyLib}.

Record t : Type := mk {
  rules : list Rule.t
}.

(** [{n for n in names if names.count(n) > 1}] *)
Definition duplicates (names : list string) : gset string :=
  list_to_set
    (List.filter (fun n => (1 <? count_occ string_dec names n)%nat) names).

Definition post_init (rules : list Rule.t) : result t :=
  match rules with
  | [] => Raise (ValueError "at least one rule is required")
  | _ =>
      let names := List.map Rule.name rules in
      if decide (duplicates names = ∅) then Ok (mk rules)
      else Raise (ValueError "duplicate rule names")
  end.

(** The loop of [call]: the first rule whose result is not [None]. *)
Fixpoint call_rules (rules : list Rule.t) (url : string)
    (parsed : ParseResult.t) : result (option string) :=
  match rules with
  | [] => Ok None
  | rule :: rules' =>
      let! result := Rule.call rule url (Some parsed) in
      match result with
      | Some v => Ok (Some v)
      | None => call_rules rules' url parsed
      end
  end.

Definition call (self : t) (url : string) : result (option string) :=
  let! parsed := urlparse url in
  call_rules (rules self) url parsed.

End defs.
End RuleSet.

(** ** main.py *)

Section main.
Context `{L : PyLib}.

(** What [RuleSet.from_directory(base_rule_directory)] gives: the rule files
    shipped with the package are read from disk, outside this model. *)
Variable base_rule_set : result RuleSet.t.

(** [rule_set or RuleSet.from_directory(base_rule_directory)]: a [RuleSet]
    has neither [__bool__] nor [__len__], so only [None] is falsy. *)
Definition rule_set_or_base (rule_set : option RuleSet.t) : result RuleSet.t :=
  match rule_set with
  | Some rs => Ok rs
  | None => base_rule_set
  end.

Definition unsafe_link (url : string) (rule_set : option RuleSet.t)
    : result (option string) :=
  let! rule_set := rule_set_or_base rule_set in
  RuleSet.call rule_set url.

(** [any(rule.filter.matches(url, parsed=parsed) for rule in rules)] *)
Fixpoint any_filter_matches (rules : list Rule.t) (url : string)
    (parsed : ParseResult.t) : result bool :=
  match rules with
  | [] => Ok false
  | rule :: rules' =>
      let! b := Filter.matches (Rule.filter rule) url (Some parsed) in
      if b then Ok true else any_filter_matches rules' url parsed
  end.

Definition is_protected_link (url : string) (rule_set : option RuleSet.t)
    : result bool :=
  let! rule_set := rule_set_or_base rule_set in
  let! parsed := urlparse url in
  any_filter_matches (RuleSet.rules rule_set) url parsed.

End main.

(** ** A reference instance of the library

    [PyRef] follows CPython 3.12 ([urllib.parse], [base64], [binascii], the
    UTF-8 codec) on the text the examples below use.  Its limits:
    - [re]: only patterns without special characters (plain text, which
      matches itself wherever it occurs) are compiled; any other pattern is
      refused;
    - [urlparse]: the address inside a bracketed host is not validated and a
      host outside ASCII is not checked for characters that normalise to a
      delimiter;
    - [hostname]: letters outside ASCII are not lower-cased;
    - [html.unescape]: exact on text without an ampersand, character
      references are left as they are. *)

Module PyRef.

Definition code (c : ascii) : N := N_of_ascii c.

Definition in_range (lo hi : N) (c : ascii) : bool :=
  ((lo <=? code c) && (code c <=? hi))%N.

Definition is_ascii_alpha (c : ascii) : bool :=
  in_range 65 90 c || in_range 97 122 c.

Definition is_digit (c : ascii) : bool := in_range 48 57 c.

Definition lower_char (c : ascii) : ascii :=
  if in_range 65 90 c then ascii_of_N (code c + 32) else c.

Fixpoint map_chars (f : ascii -> ascii) (s : string) : string :=
  match s with
  | EmptyString => EmptyString
  | String c s' => String (f c) (map_chars f s')
  end.

(** [s.lower()] on ASCII letters *)
Definition lower (s : string) : string := map_chars lower_char s.

Fixpoint filter_chars (keep : ascii -> bool) (s : string) : string :=
  match s with
  | EmptyString => EmptyString
  | String c s' =>
      if keep c then String c (filter_chars keep s') else filter_chars keep s'
  end.

Fixpoint all_chars (p : ascii -> bool) (s : string) : bool :=
  match s with
  | EmptyString => true
  | String c s' => p c && all_chars p s'
  end.

(** [c in s] *)
Fixpoint contains (c : ascii) (s : string) : bool :=
  match s with
  | EmptyString => false
  | String d s' => Ascii.eqb c d || contains c s'
  end.

(** The longest prefix whose characters all satisfy [p], and the rest. *)
Fixpoint span (p : ascii -> bool) (s : string) : string * string :=
  match s with
  | EmptyString => (EmptyString, EmptyString)
  | String c s' =>
      if p c then let '(a, b) := span p s' in (String c a, b)
      else (EmptyString, s)
  end.

(** [s.partition(sep)]: [(head, found, tail)], with [found] telling whether
    [sep] occurs; when it does not, [head] is [s] and [tail] is empty. *)
Definition partition (sep : ascii) (s : string) : string * bool * string :=
  let '(a, b) := span (fun c => negb (Ascii.eqb c sep)) s in
  match b with
  | EmptyString => (s, false, EmptyString)
  | String _ b' => (a, true, b')
  end.

(** [s.rpartition(sep)]: the split is at the last [sep]; when there is none,
    [head] is empty and [tail] is [s]. *)
Fixpoint rpartition (sep : ascii) (s : string) : string * bool * string :=
  match s with
  | EmptyString => (EmptyString, false, EmptyString)
  | String c s' =>
      match rpartition sep s' with
      | (h, true, t) => (String c h, true, t)
      | (_, false, _) =>
          if Ascii.eqb c sep then (EmptyString, true, s')
          else (EmptyString, false, s)
      end
  end.

(** [s.split(sep)] *)
Fixpoint split (sep : ascii) (s : string) : list string :=
  match s with
  | EmptyString => [EmptyString]
  | String c s' =>
      match split sep s' with
      | [] => [s]
      | w :: ws =>
          if Ascii.eqb c sep then EmptyString :: w :: ws
          else String c w :: ws
      end
  end.

(** *** urllib.parse.urlsplit and urlparse *)

(** [url.lstrip(_WHATWG_C0_CONTROL_OR_SPACE)] *)
Definition lstrip_c0_or_space (url : string) : string :=
  snd (span (in_range 0 32) url).

(** Removal of [_UNSAFE_URL_BYTES_TO_REMOVE]: tab, carriage return, line feed *)
Definition remove_unsafe (url : string) : string :=
  filter_chars (fun c => negb ((code c =? 9) || (code c =? 13) || (code c =? 10))%N)
    url.

Definition is_scheme_char (c : ascii) : bool :=
  is_ascii_alpha c || is_digit c
  || Ascii.eqb c "+" || Ascii.eqb c "-" || Ascii.eqb c ".".

(** The scheme, when the text before the first colon is one. *)
Definition split_scheme (url : string) : string * string :=
  match partition ":" url with
  | (before, true, after) =>
      match before with
      | String c0 _ =>
          if is_ascii_alpha c0 && all_chars is_scheme_char before
          then (lower before, after)
          else (EmptyString, url)
      | EmptyString => (EmptyString, url)
      end
  | (_, false, _) => (EmptyString, url)
  end.

(** [_splitnetloc(url, 2)], applied to [url] without its two slashes *)
Definition _splitnetloc (rest : string) : string * string :=
  span (fun c => negb (Ascii.eqb c "/" || Ascii.eqb c "?" || Ascii.eqb c "#"))
    rest.

Definition uses_params : list string :=
  [""; "ftp"; "hdl"; "prospero"; "http"; "imap"; "https"; "shttp"; "rtsp";
   "rtsps"; "rtspu"; "sip"; "sips"; "mms"; "sftp"; "tel"].

(** [_splitparams(url)] for a [url] holding a semicolon *)
Definition _splitparams (url : string) : string * string :=
  if contains "/" url then
    match rpartition "/" url with
    | (h, _, last) =>
        match partition ";" last with
        | (a, true, b) => (h +:+ "/" +:+ a, b)
        | (_, false, _) => (url, EmptyString)
        end
    end
  else
    match partition ";" url with
    | (a, _, b) => (a, b)
    end.

Definition urlparse (url : string) : result ParseResult.t :=
  let url := remove_unsafe (lstrip_c0_or_space url) in
  let '(scheme, url) := split_scheme url in
  let '(netloc, url) :=
    match url with
    | String "/" (String "/" rest) => _splitnetloc rest
    | _ => (EmptyString, url)
    end in
  if xorb (contains "[" netloc) (contains "]" netloc) then
    Raise (ValueError "Invalid IPv6 URL")
  else
    let '(url, fragment) :=
      match partition "#" url with
      | (a, _, b) => (a, b)
      end in
    let '(url, query) :=
      match partition "?" url with
      | (a, _, b) => (a, b)
      end in
    let '(url, params) :=
      if name_in scheme uses_params && contains ";" url then _splitparams url
      else (url, EmptyString) in
    Ok (ParseResult.mk scheme netloc url params query fragment).

(** The [hostname] property, through [_hostinfo]. *)
Definition hostname (parsed : ParseResult.t) : option string :=
  let '(_, _, hostinfo) := rpartition "@" (ParseResult.netloc parsed) in
  let '(before, have_open_br, bracketed) := partition "[" hostinfo in
  let host :=
    if have_open_br then
      match partition "]" bracketed with
      | (h, _, _) => h
      end
    else
      match partition ":" hostinfo with
      | (h, _, _) => h
      end in
  match host with
  | EmptyString => None
  | _ =>
      match partition "%" host with
      | (h, true, zone) => Some (lower h +:+ "%" +:+ zone)
      | (h, false, _) => Some (lower h)
      end
  end.

(** *** The UTF-8 codec *)

Definition is_cont (b : N) : bool := ((128 <=? b) && (b <? 192))%N.

(** What the decoder finds at the head of a non-empty input: a well-formed
    sequence of [n] bytes, or an error covering [n] bytes. *)
Inductive utf8_step : Type :=
| U_char (n : nat)
| U_error (msg : string) (n : nat).

Definition end_of_data (n : nat) : utf8_step :=
  U_error "unexpected end of data" n.

Definition bad_continuation (n : nat) : utf8_step :=
  U_error "invalid continuation byte" n.

Definition utf8_next (ch : N) (rest : list N) : utf8_step :=
  if (ch <? 128)%N then U_char 1
  else if (ch <? 194)%N then U_error "invalid start byte" 1
  else if (ch <? 224)%N then
    match rest with
    | [] => end_of_data 1
    | c2 :: _ => if is_cont c2 then U_char 2 else bad_continuation 1
    end
  else if (ch <? 240)%N then
    match rest with
    | [] => end_of_data 1
    | c2 :: rest2 =>
        if negb (is_cont c2)
           || (if (c2 <? 160)%N then (ch =? 224)%N else (ch =? 237)%N)
        then bad_continuation 1
        else
          match rest2 with
          | [] => end_of_data 2
          | c3 :: _ => if is_cont c3 then U_char 3 else bad_continuation 2
          end
    end
  else if (ch <? 245)%N then
    match rest with
    | [] => end_of_data 1
    | c2 :: rest2 =>
        if negb (is_cont c2)
           || (if (c2 <? 144)%N then (ch =? 240)%N else (ch =? 244)%N)
        then bad_continuation 1
        else
          match rest2 with
          | [] => end_of_data 2
          | c3 :: rest3 =>
              if negb (is_cont c3) then bad_continuation 2
              else
                match rest3 with
                | [] => end_of_data 3
                | c4 :: _ =>
                    if is_cont c4 then U_char 4 else bad_continuation 3
                end
          end
    end
  else U_error "invalid start byte" 1.

Definition text_of_bytes (bs : list N) : string :=
  string_of_list_ascii (List.map ascii_of_N bs).

Definition bytes_of_text (s : string) : list N :=
  List.map N_of_ascii (list_ascii_of_string s).

(** [bs.decode("utf-8", errors)]: with [replace] each error becomes U+FFFD
    (bytes EF BF BD), without it the first error is raised.  Every step
    consumes at least one byte, so [length bs] steps are enough. *)
Fixpoint utf8_decode_steps (steps : nat) (replace : bool) (bs : list N)
    : result (list N) :=
  match steps, bs with
  | _, [] => Ok []
  | O, _ => Ok []
  | S steps', ch :: rest =>
      match utf8_next ch rest with
      | U_char n =>
          let! out := utf8_decode_steps steps' replace (List.skipn n bs) in
          Ok (List.firstn n bs ++ out)
      | U_error msg n =>
          if replace then
            let! out := utf8_decode_steps steps' replace (List.skipn n bs) in
            Ok ([239; 191; 189]%N ++ out)
          else Raise (UnicodeDecodeError msg)
      end
  end.

Definition utf8_decode (replace : bool) (bs : list N) : result string :=
  let! out := utf8_decode_steps (List.length bs) replace bs in
  Ok (text_of_bytes out).

(** [b.decode()] *)
Definition bytes_decode (b : bytes) : result string :=
  utf8_decode false (List.map Byte.to_N b).

(** *** urllib.parse.unquote and parse_qs *)

(** [_unquote_impl(run)]: a percent sign followed by two hexadecimal digits
    becomes the byte they spell, every other character stands. *)
Fixpoint _unquote_impl (run : string) : list N :=
  match run with
  | EmptyString => []
  | String c rest =>
      if Ascii.eqb c "%" then
        match rest with
        | String a (String b rest') =>
            match hex_digit a, hex_digit b with
            | Some x, Some y => (16 * x + y)%N :: _unquote_impl rest'
            | _, _ => code c :: _unquote_impl rest
            end
        | _ => code c :: _unquote_impl rest
        end
      else code c :: _unquote_impl rest
  end.

Definition is_ascii (c : ascii) : bool := (code c <? 128)%N.

(** [_generate_unquoted_parts]: the text is cut into maximal runs of ASCII
    and of other characters; each ASCII run is unquoted and decoded with
    [errors="replace"], the others are kept. *)
Fixpoint unquote_parts (steps : nat) (s : string) : string :=
  match steps, s with
  | _, EmptyString => EmptyString
  | O, _ => EmptyString
  | S steps', _ =>
      let '(run, rest) := span is_ascii s in
      let '(other, rest') := span (fun c => negb (is_ascii c)) rest in
      let decoded :=
        match utf8_decode true (_unquote_impl run) with
        | Ok t => t
        | Raise _ => EmptyString
        end in
      decoded +:+ other +:+ unquote_parts steps' rest'
  end.

Definition unquote (s : string) : string :=
  if negb (contains "%" s) then s
  else unquote_parts (String.length s) s.

(** [parse_qsl(qs)] with its defaults: fields are cut at ampersands; a field
    without an equals sign or with an empty value is dropped. *)
Definition parse_qsl (qs : string) : list (string * string) :=
  List.flat_map
    (fun name_value =>
       match name_value with
       | EmptyString => []
       | _ =>
           match partition "=" name_value with
           | (_, false, _) => []
           | (n, true, v) =>
               match v with
               | EmptyString => []
               | _ =>
                   [(unquote (replace_char "+" " " n),
                     unquote (replace_char "+" " " v))]
               end
           end
       end)
    (split "&" qs).

Definition parse_qs (qs : string) : gmap string (list string) :=
  List.fold_left
    (fun parsed_result '(name, value) =>
       <[name := default [] (parsed_result !! name) ++ [value]]> parsed_result)
    (parse_qsl qs) ∅.

(** *** base64.b64decode *)

Definition table_a2b_base64 (c : ascii) : option N :=
  if in_range 65 90 c then Some (code c - 65)%N
  else if in_range 97 122 c then Some (code c - 71)%N
  else if in_range 48 57 c then Some (code c + 4)%N
  else if Ascii.eqb c "+" then Some 62%N
  else if Ascii.eqb c "/" then Some 63%N
  else None.

(** [binascii.a2b_base64(data, strict_mode=False)]: characters outside the
    alphabet are skipped; padding that completes a quad ends the input; data
    that stops inside a quad is an error. *)
Fixpoint a2b_base64 (data : string) (quad_pos : nat) (leftchar : N)
    (pads : nat) (out : list N) : result (list N) :=
  match data with
  | EmptyString =>
      match quad_pos with
      | 0 => Ok out
      | 1 => Raise (BinasciiError "Invalid base64-encoded string")
      | _ => Raise (BinasciiError "Incorrect padding")
      end
  | String this_ch data' =>
      if Ascii.eqb this_ch "=" then
        if (2 <=? quad_pos)%nat then
          if (4 <=? quad_pos + S pads)%nat then Ok out
          else a2b_base64 data' quad_pos leftchar (S pads) out
        else a2b_base64 data' quad_pos leftchar pads out
      else
        match table_a2b_base64 this_ch with
        | None => a2b_base64 data' quad_pos leftchar pads out
        | Some v =>
            match quad_pos with
            | 0 => a2b_base64 data' 1 v 0 out
            | 1 =>
                a2b_base64 data' 2 (N.land v 15) 0
                  (out ++ [N.lor (N.shiftl leftchar 2) (N.shiftr v 4)])
            | 2 =>
                a2b_base64 data' 3 (N.land v 3) 0
                  (out ++ [N.lor (N.shiftl leftchar 4) (N.shiftr v 2)])
            | _ =>
                a2b_base64 data' 0 0%N 0
                  (out ++ [N.lor (N.shiftl leftchar 6) v])
            end
        end
  end.

Definition b64decode (s : string) : result bytes :=
  if negb (all_chars is_ascii s) then
    Raise (ValueError "string argument should contain only ASCII characters")
  else
    let! out := a2b_base64 s 0 0%N 0 [] in
    Ok (List.map (fun n => byte_of_ascii (ascii_of_N n)) out).

(** *** re, for patterns that are plain text *)

Definition is_special (c : ascii) : bool :=
  contains c ".^$*+?{}[]\|()".

Definition re_compile (p : string) : option string :=
  if all_chars (fun c => negb (is_special c)) p then Some p else None.

(** The leftmost place where the text occurs; the match is the text. *)
Fixpoint re_search (p s : string) : option string :=
  if String.prefix p s then Some p
  else
    match s with
    | EmptyString => None
    | String _ s' => re_search p s'
    end.

Definition re_group (m : string) (i : nat) : result (option string) :=
  match i with
  | 0 => Ok (Some m)
  | _ => Raise (IndexError "no such group")
  end.

(** [html.unescape]: see the limits above. *)
Definition html_unescape (s : string) : string := s.

End PyRef.

Definition PyRef_lib : PyLib := {|
  Pattern := string;
  Match := string;
  re_compile := PyRef.re_compile;
  re_groups := fun _ => 0;
  re_search := PyRef.re_search;
  re_group := PyRef.re_group;
  urlparse := PyRef.urlparse;
  parsed_hostname := PyRef.hostname;
  parse_qs := PyRef.parse_qs;
  html_unescape := PyRef.html_unescape;
  unquote := PyRef.unquote;
  b64decode := PyRef.b64decode;
  bytes_decode := PyRef.bytes_decode
|}.

(** ** Rules used in the examples

    Built on [PyRef]; each record is what the constructors return (see
    [Ex_constructed] below). *)

Module Ex.

#[local] Existing Instance PyRef_lib.

(** [Matcher(h)] for plain text [h] *)
Definition exact (h : string) : Matcher.t := Matcher.mk h false h None.

(** [Filter(hostname=[Matcher(h)])] *)
Definition host (h : string) : Filter.t := Filter.mk [exact h] [].

(** [Extract(source=QUERY_PARAM, keys=keys, select=select)] *)
Definition query_param (keys : list string) (select : ParamSelect)
    : Extract.t :=
  Extract.mk QUERY_PARAM keys None select None.

Definition base64_decode : Transform.t := Transform.mk "base64_decode" None.

Definition url_decode : Transform.t := Transform.mk "url_decode" None.

Definition proofpoint_v2_decode : Transform.t :=
  Transform.mk "proofpoint_v2_decode" None.

(** A rule in the manner of the Sophos one: the target is the base64 text
    of parameter [u]. *)
Definition encoded : Rule.t :=
  Rule.mk "encoded" (host "protect.example.com")
    (query_param ["u"] FIRST) [] [base64_decode].

(** A rule for the same host that takes parameter [u] as it is. *)
Definition plain : Rule.t :=
  Rule.mk "plain" (host "protect.example.com")
    (query_param ["u"] FIRST) [] [].

(** A rule that takes the last [u]. *)
Definition last_u : Rule.t :=
  Rule.mk "last_u" (host "protect.example.com")
    (query_param ["u"] LAST) [] [].

Definition two_rules : RuleSet.t := RuleSet.mk [encoded; plain].

(** [Filter(hostname=[Matcher("example.com")], path=[Matcher("/a")])] *)
Definition host_and_path : Filter.t :=
  Filter.mk [exact "example.com"] [exact "/a"].

(** [Filter(hostname=[Matcher("//")])] *)
Definition any_host : Filter.t :=
  Filter.mk [Matcher.mk "//" true "" (Some "")] [].

(** The two schemes that tests/test_main.py exercises with an encoded
    target, their hosts given as plain text. *)
Definition proofpoint_v2 : Rule.t :=
  Rule.mk "proofpoint_v2" (host "urldefense.proofpoint.com")
    (query_param ["u"] FIRST) [] [proofpoint_v2_decode].

Definition sophos : Rule.t :=
  Rule.mk "sophos" (host "eu-central-1.protection.sophos.com")
    (query_param ["u"] FIRST) [] [base64_decode].

Definition tested_rules : RuleSet.t := RuleSet.mk [proofpoint_v2; sophos].

Definition x1 : Rule.t :=
  Rule.mk "x" (host "a.example.com") (query_param ["u"] FIRST) [] [].

Definition x2 : Rule.t :=
  Rule.mk "x" (host "b.example.com") (query_param ["v"] FIRST) [] [].

End Ex.

(** ** Loading from definitions: the [from_dict] class methods

    A definition is the data that [yaml.safe_load] returns.  The mapping
    handed to [Filter.from_dict] has values of one type and is a [gmap];
    the mappings handed to [Extract.from_dict] and [Rule.from_dict] have a
    value type per key and are records of the keys that the method reads,
    each key present or absent (a [TypedDict]); a mapping whose order
    matters ([Transform.from_dict] takes its first key) is the list of its
    items.  The values have the types that the dataclass fields and
    [_to_matchers] are annotated with. *)

(** What loading can raise: the errors of the constructors, [KeyError] for
    a key that is missing and [StopIteration] for [next] on the iterator of
    an empty mapping. *)
Inductive load_exception : Type :=
| Constructing (e : exception)
| KeyError (key : string)
| StopIteration.

Inductive loaded (A : Type) : Type :=
| Loaded (a : A)
| Failed (e : load_exception).

Arguments Loaded {A} a.
Arguments Failed {A} e.

Definition load_bind {A B : Type} (c : loaded A) (k : A -> loaded B)
    : loaded B :=
  match c with
  | Loaded a => k a
  | Failed e => Failed e
  end.

Notation "'let?' x ':=' c 'in' k" := (load_bind c (fun x => k))
  (at level 10, x name, c at level 100, k at level 200).

Definition of_result {A : Type} (c : result A) : loaded A :=
  match c with
  | Ok a => Loaded a
  | Raise e => Failed (Constructing e)
  end.

(** [data[key]], given what the mapping holds at [key] *)
Definition getitem {A : Type} (key : string) (held : option A) : loaded A :=
  match held with
  | Some a => Loaded a
  | None => Failed (KeyError key)
  end.

(** [[f(x) for x in xs]]: the first failure ends the comprehension. *)
Fixpoint load_all {A B : Type} (f : A -> loaded B) (xs : list A)
    : loaded (list B) :=
  match xs with
  | [] => Loaded []
  | x :: xs' =>
      let? y := f x in
      let? ys := load_all f xs' in
      Loaded (y :: ys)
  end.

(** [ExtractSource(value)]: the member with that value *)
Definition ExtractSource_of_value (value : string) : result ExtractSource :=
  if String.eqb value "query_param" then Ok QUERY_PARAM
  else if String.eqb value "path_regex" then Ok PATH_REGEX
  else if String.eqb value "url_regex" then Ok URL_REGEX
  else Raise (ValueError "is not a valid ExtractSource").

(** [ParamSelect(value)] *)
Definition ParamSelect_of_value (value : string) : result ParamSelect :=
  if String.eqb value "first" then Ok FIRST
  else if String.eqb value "last" then Ok LAST
  else Raise (ValueError "is not a valid ParamSelect").

(** The mapping under [extract] in a rule definition. *)
Module ExtractData.
Record t : Type := mk {
  from : option string;
  keys : option (list string);
  pattern : option (option string);
  select : option string
}.
End ExtractData.

(** An element of [pre_extract] or [post_extract]: a bare name, or a
    mapping given by its items in order. *)
Definition TransformData : Type := string + list (string * option string).

(** A rule definition. *)
Module RuleData.
Record t : Type := mk {
  name : option string;
  filter : option (gmap string (string + list string));
  extract : option ExtractData.t;
  pre_extract : option (list TransformData);
  post_extract : option (list TransformData)
}.
End RuleData.

Section from_dict.
Context `{L : PyLib}.

Definition Filter_from_dict (data : gmap string (string + list string))
    : loaded Filter.t :=
  let? h := getitem "hostname" (data !! "hostname") in
  let? hostname := of_result (_to_matchers h) in
  let? path :=
    match data !! "path" with
    | Some p => of_result (_to_matchers p)
    | None => Loaded []
    end in
  of_result (Filter.post_init hostname path).

Definition Transform_from_dict (data : TransformData) : loaded Transform.t :=
  match data with
  | inl name => of_result (Transform.post_init name None)
  | inr [] => Failed StopIteration
  | inr ((name, value) :: _) => of_result (Transform.post_init name value)
  end.

Definition Extract_from_dict (data : ExtractData.t) : loaded Extract.t :=
  let? value := getitem "from" (ExtractData.from data) in
  let? source := of_result (ExtractSource_of_value value) in
  let keys := default [] (ExtractData.keys data) in
  let pattern :=
    match ExtractData.pattern data with
    | Some p => p
    | None => None
    end in
  let? select :=
    match ExtractData.select data with
    | Some v => of_result (ParamSelect_of_value v)
    | None => Loaded FIRST
    end in
  of_result (Extract.post_init source keys pattern select).

Definition Rule_from_dict (data : RuleData.t) : loaded Rule.t :=
  let? name := getitem "name" (RuleData.name data) in
  let? f := getitem "filter" (RuleData.filter data) in
  let? filter_ := Filter_from_dict f in
  let? e := getitem "extract" (RuleData.extract data) in
  let? extract := Extract_from_dict e in
  let? pre_extract :=
    load_all Transform_from_dict (default [] (RuleData.pre_extract data)) in
  let? post_extract :=
    load_all Transform_from_dict (default [] (RuleData.post_extract data)) in
  of_result (Rule.post_init name filter_ extract pre_extract post_extract).

Definition RuleSet_from_dict (data : gmap string (list RuleData.t))
    : loaded RuleSet.t :=
  let? rs := getitem "rules" (data !! "rules") in
  let? rules := load_all Rule_from_dict rs in
  of_result (RuleSet.post_init rules).

End from_dict.

(** ** Definitions used in the further examples *)

Module ExX.

(** [{"hostname": "protect.example.com"}] *)
Definition filter_data : gmap string (string + list string) :=
  {[ "hostname" := inl "protect.example.com" ]}.

(** [{"from": "query_param", "keys": ["u"]}] *)
Definition extract_data : ExtractData.t :=
  ExtractData.mk (Some "query_param") (Some ["u"]) None None.

(** A rule definition with [post_extract: [base64_decode]] *)
Definition rule_data (name : string) : RuleData.t :=
  RuleData.mk (Some name) (Some filter_data) (Some extract_data) None
    (Some [inl "base64_decode"]).

(** [{"rules": [...]}] *)
Definition rules_data (names : list string)
    : gmap string (list RuleData.t) :=
  {[ "rules" := List.map rule_data names ]}.

End ExX.

(** * Properties *)

(** ** Results *)

Lemma bind_Ok {A B : Type} (c : result A) (k : A -> result B) (b : B) :
  bind c k = Ok b <-> exists a, c = Ok a /\ k a = Ok b.
Proof.
  destruct c as [a | e]; simpl; split.
  - intros H. exists a. split; [reflexivity | exact H].
  - intros (a' & Ha & Hk). inversion Ha. subst. exact Hk.
  - discriminate.
  - intros (a' & Ha & _). discriminate.
Qed.

Lemma bind_Raise {A B : Type} (c : result A) (k : A -> result B) (e : exception) :
  bind c k = Raise e <-> c = Raise e \/ exists a, c = Ok a /\ k a = Raise e.
Proof.
  destruct c as [a | e']; simpl; split.
  - intros H. right. exists a. split; [reflexivity | exact H].
  - intros [H | (a' & Ha & Hk)]; [discriminate |]. inversion Ha. subst. exact Hk.
  - intros H. left. congruence.
  - intros [H | (a' & Ha & _)]; [congruence | discriminate].
Qed.

(** ** Rule names *)

Section names.

Lemma filter_nil_iff {A : Type} (f : A -> bool) (l : list A) :
  List.filter f l = [] <-> forall x, x ∈ l -> f x = false.
Proof.
  induction l as [| a l IH]; simpl.
  - split; [intros _ x Hx; inversion Hx | reflexivity].
  - destruct (f a) eqn:Ha.
    + split; [discriminate |].
      intros H. specialize (H a (list_elem_of_here a l)). congruence.
    + rewrite IH. split.
      * intros H x Hx. apply elem_of_cons in Hx as [-> | Hx]; auto.
      * intros H x Hx. apply H. now apply list_elem_of_further.
Qed.

Lemma list_to_set_empty_iff (l : list string) :
  list_to_set l = (∅ : gset string) <-> l = [].
Proof.
  split.
  - destruct l as [| a l]; [reflexivity |].
    intros H. exfalso.
    assert (Ha : a ∈ (list_to_set (a :: l) : gset string))
      by (apply elem_of_list_to_set; apply list_elem_of_here).
    rewrite H in Ha. now apply not_elem_of_empty in Ha.
  - intros ->. reflexivity.
Qed.

Lemma duplicates_empty_iff (names : list string) :
  RuleSet.duplicates names = ∅ <-> NoDup names.
Proof.
  unfold RuleSet.duplicates.
  rewrite list_to_set_empty_iff, filter_nil_iff.
  rewrite NoDup_ListNoDup, (List.NoDup_count_occ string_dec).
  split.
  - intros H x.
    destruct (le_lt_dec (count_occ string_dec names x) 1) as [Hle | Hlt];
      [exact Hle |].
    assert (Hin : x ∈ names).
    { apply list_elem_of_In, (count_occ_In string_dec). lia. }
    specialize (H x Hin). apply Nat.ltb_ge in H. lia.
  - intros H x _. apply Nat.ltb_ge. apply H.
Qed.

End names.

(** ** C8: construction of a RuleSet *)

Lemma RuleSet_post_init_Ok `{L : PyLib} (rules : list Rule.t) (rs : RuleSet.t) :
  RuleSet.post_init rules = Ok rs <->
  rs = RuleSet.mk rules /\ rules <> [] /\ NoDup (List.map Rule.name rules).
Proof.
  unfold RuleSet.post_init.
  destruct rules as [| r rules'].
  - split; [discriminate | intros (_ & H & _); congruence].
  - case_decide as Hd.
    + apply duplicates_empty_iff in Hd. split.
      * intros H. inversion H. split; [reflexivity | split; [discriminate | exact Hd]].
      * intros (-> & _ & _). reflexivity.
    + split; [discriminate |].
      intros (_ & _ & Hn). apply duplicates_empty_iff in Hn. contradiction.
Qed.

(** C8. Constructing a RuleSet fails (with a ValueError, the program's
    configuration error) when the list of rules is empty and when two rules
    at different positions have the same name, in particular for two rules
    both named "x"; it succeeds exactly when the list is non-empty and the
    names are pairwise distinct. *)
Theorem C8_RuleSet_names_unique `{L : PyLib} (rules : list Rule.t) :
  (rules = [] ->
   RuleSet.post_init rules = Raise (ValueError "at least one rule is required"))
  /\ (forall i j r1 r2,
        i <> j -> rules !! i = Some r1 -> rules !! j = Some r2 ->
        Rule.name r1 = Rule.name r2 ->
        RuleSet.post_init rules = Raise (ValueError "duplicate rule names"))
  /\ (forall rs,
        RuleSet.post_init rules = Ok rs ->
        RuleSet.rules rs = rules /\ rules <> []
        /\ NoDup (List.map Rule.name rules))
  /\ (rules <> [] -> NoDup (List.map Rule.name rules) ->
        RuleSet.post_init rules = Ok (RuleSet.mk rules))
  /\ (forall r1 r2,
        Rule.name r1 = "x" -> Rule.name r2 = "x" ->
        RuleSet.post_init [r1; r2] = Raise (ValueError "duplicate rule names")).
Proof.
  assert (Hdup : forall (l : list Rule.t) i j r1 r2,
            i <> j -> l !! i = Some r1 -> l !! j = Some r2 ->
            Rule.name r1 = Rule.name r2 ->
            RuleSet.post_init l = Raise (ValueError "duplicate rule names")).
  { intros l i j r1 r2 Hij Hi Hj Hname.
    unfold RuleSet.post_init.
    destruct l as [| r l']; [rewrite lookup_nil in Hi; discriminate |].
    case_decide as Hd; [| reflexivity].
    exfalso. apply duplicates_empty_iff in Hd.
    apply Hij. apply (proj1 (NoDup_alt _) Hd i j (Rule.name r1)).
    - rewrite list_lookup_fmap, Hi. reflexivity.
    - rewrite list_lookup_fmap, Hj, Hname. reflexivity. }
  repeat split.
  - intros ->. reflexivity.
  - apply Hdup.
  - apply RuleSet_post_init_Ok in H. destruct H as (-> & _). reflexivity.
  - apply RuleSet_post_init_Ok in H. tauto.
  - apply RuleSet_post_init_Ok in H. tauto.
  - intros Hne Hnd. apply RuleSet_post_init_Ok. auto.
  - intros r1 r2 H1 H2. apply (Hdup [r1; r2] 0 1 r1 r2); auto; congruence.
Qed.

Lemma C8_witness :
  RuleSet.post_init (L := PyRef_lib) [Ex.x1; Ex.x2]
  = Raise (ValueError "duplicate rule names").
Proof.
  apply (proj1 (proj2 (C8_RuleSet_names_unique (L := PyRef_lib) [Ex.x1; Ex.x2]))
           0 1 Ex.x1 Ex.x2).
  - lia.
  - reflexivity.
  - reflexivity.
  - reflexivity.
Defined.

(** ** C6: the proofpoint_v2_decode transform *)

Lemma replace_char_app (old new : ascii) (s1 s2 : string) :
  replace_char old new (s1 +:+ s2)
  = replace_char old new s1 +:+ replace_char old new s2.
Proof.
  induction s1 as [| c s1 IH]; simpl; [reflexivity |]. now rewrite IH.
Qed.

Lemma replace_char_absent (old new : ascii) (s : string) :
  old <> new -> ~ In old (list_ascii_of_string (replace_char old new s)).
Proof.
  intros Hne. induction s as [| c s IH]; simpl; [tauto |].
  intros [H | H]; [| tauto].
  destruct (Ascii.eqb_spec c old); congruence.
Qed.

(** The substitution, position by position: a match is replaced and the
    scan resumes after it; without a match one character is copied. *)
Lemma _PROOFPOINT_V2_RE_sub_step (c : ascii) (s : string) :
  _PROOFPOINT_V2_RE_sub (String c s)
  = match _PROOFPOINT_V2_RE_match (String c s) with
    | Some (n, rest) => chr n +:+ _PROOFPOINT_V2_RE_sub rest
    | None => String c (_PROOFPOINT_V2_RE_sub s)
    end.
Proof.
  simpl. destruct (Ascii.eqb c "-"); [| now destruct s as [| a [| b r]]].
  destruct s as [| a [| b r]]; try reflexivity.
  destruct (hex_digit a), (hex_digit b); reflexivity.
Qed.

(** C6. proofpoint_v2_decode never fails; it turns "http-3A__example.com"
    into "http://example.com"; a hyphen followed by two hexadecimal digits
    is replaced by the character with that code point and the scan goes on
    after the second digit; any other character is copied; and afterwards
    every underscore (one produced by "-5F" too) is a slash, so that no
    underscore is left. *)
Theorem C6_proofpoint_v2_decode `{L : PyLib} :
  let t := Transform.mk "proofpoint_v2_decode" None in
  let decode := fun s => replace_char "_" "/" (_PROOFPOINT_V2_RE_sub s) in
  Transform.call t "http-3A__example.com" = Ok "http://example.com"
  /\ (forall text, Transform.call t text = Ok (decode text))
  /\ (forall a b x y rest,
        hex_digit a = Some x -> hex_digit b = Some y ->
        decode (String "-" (String a (String b rest)))
        = replace_char "_" "/" (chr (16 * x + y)) +:+ decode rest)
  /\ (forall c rest,
        _PROOFPOINT_V2_RE_match (String c rest) = None ->
        decode (String c rest)
        = String (if Ascii.eqb c "_" then "/"%char else c) (decode rest))
  /\ (forall text, ~ In "_"%char (list_ascii_of_string (decode text)))
  /\ decode "-5F-5f_-3a4-zz-" = "///:4-zz-".
Proof.
  intros t decode.
  split; [reflexivity |]. split; [reflexivity |].
  split; [| split; [| split; [| reflexivity]]].
  - intros a b x y rest Ha Hb. unfold decode.
    rewrite _PROOFPOINT_V2_RE_sub_step. simpl. rewrite Ha, Hb.
    apply replace_char_app.
  - intros c rest Hm. unfold decode.
    rewrite _PROOFPOINT_V2_RE_sub_step, Hm. reflexivity.
  - intros text. apply replace_char_absent. discriminate.
Qed.

Lemma C6_witness :
  replace_char "_" "/" (_PROOFPOINT_V2_RE_sub "-2Fa_b")
  = replace_char "_" "/" (chr (16 * 2 + 15)) +:+
    replace_char "_" "/" (_PROOFPOINT_V2_RE_sub "a_b").
Proof.
  apply (proj1 (proj2 (proj2 (C6_proofpoint_v2_decode (L := PyRef_lib))))
           "2"%char "F"%char 2%N 15%N "a_b"); reflexivity.
Defined.

(** ** C10: the patterns "/" and "//" *)

Lemma Matcher_post_init_Ok `{L : PyLib} (raw : string) (m : Matcher.t) :
  Matcher.post_init raw = Ok m ->
  raw <> ""
  /\ Matcher.raw m = raw
  /\ Matcher.is_regex m
     = ((2 <=? String.length raw)%nat && startswith "/" raw && endswith "/" raw)
  /\ Matcher.pattern m
     = (if Matcher.is_regex m then slice_1_m1 raw else raw)
  /\ Matcher._compiled m
     = (if Matcher.is_regex m then re_compile (slice_1_m1 raw) else None).
Proof.
  unfold Matcher.post_init.
  destruct (String.eqb_spec raw "") as [-> | Hne]; [discriminate |].
  destruct ((2 <=? String.length raw)%nat && startswith "/" raw
            && endswith "/" raw) eqn:Hre.
  - destruct (re_compile (slice_1_m1 raw)) as [c |] eqn:Hc; [| discriminate].
    intros H. inversion H. subst m. simpl. auto.
  - intros H. inversion H. subst m. simpl. auto.
Qed.

Lemma PyRef_re_search_empty (v : string) : PyRef.re_search "" v = Some "".
Proof. destruct v; reflexivity. Qed.

(** C10. A Matcher is the regex variant exactly when its raw pattern has at
    least two characters and both starts and ends with a slash.  So "/" is
    the exact variant and matches the text "/" and no other; "//" is the
    regex variant for the empty pattern, and matches every text as soon as
    the empty regular expression is found in every text. *)
Theorem C10_slash_patterns `{L : PyLib} :
  (forall raw m,
     Matcher.post_init raw = Ok m ->
     (Matcher.is_regex m = true <->
      2 <= String.length raw /\ startswith "/" raw = true
      /\ endswith "/" raw = true)
     /\ (Matcher.is_regex m = false -> Matcher._compiled m = None))
  /\ Matcher.post_init "/" = Ok (Matcher.mk "/" false "/" None)
  /\ (forall v, Matcher.matches (Matcher.mk "/" false "/" None) v = true
                <-> v = "/")
  /\ (forall p,
        re_compile "" = Some p ->
        Matcher.post_init "//" = Ok (Matcher.mk "//" true "" (Some p))
        /\ ((forall v, exists m, re_search p v = Some m) ->
            forall v, Matcher.matches (Matcher.mk "//" true "" (Some p)) v
                      = true)).
Proof.
  split; [| split; [| split]].
  - intros raw m H. apply Matcher_post_init_Ok in H.
    destruct H as (_ & _ & Hre & _ & Hc). split.
    + rewrite Hre, !andb_true_iff, Nat.leb_le. tauto.
    + intros Hf. rewrite Hc, Hf. reflexivity.
  - reflexivity.
  - intros v. unfold Matcher.matches. simpl. apply String.eqb_eq.
  - intros p Hp. split.
    + change (Matcher.post_init "//")
        with (match re_compile "" with
              | Some c => Ok (Matcher.mk "//" true "" (Some c))
              | None => Raise (ValueError "invalid regex")
              end).
      rewrite Hp. reflexivity.
    + intros Hall v. unfold Matcher.matches. simpl.
      destruct (Hall v) as [m ->]. reflexivity.
Qed.

Lemma C10_witness :
  Matcher.post_init (L := PyRef_lib) "//"
  = Ok (Matcher.mk (L := PyRef_lib) "//" true "" (Some ""))
  /\ forall v,
       Matcher.matches (L := PyRef_lib)
         (Matcher.mk (L := PyRef_lib) "//" true "" (Some "")) v
       = true.
Proof.
  destruct (proj2 (proj2 (proj2 (C10_slash_patterns (L := PyRef_lib))))
              "" eq_refl) as [Hnew Hall].
  split; [exact Hnew |].
  apply Hall. intros v. exists "". apply PyRef_re_search_empty.
Defined.

(** ** C4 and C5: what a Filter looks at *)

Section filter.
Context `{L : PyLib}.

Lemma any_matches_true (ms : list Matcher.t) (v : string) :
  Filter.any_matches ms v = true
  <-> exists m, In m ms /\ Matcher.matches m v = true.
Proof. unfold Filter.any_matches. apply existsb_exists. Qed.

Lemma matches_parsed_true (F : Filter.t) (parsed : ParseResult.t) :
  Filter.matches_parsed F parsed = true <-> Filter_condition F parsed.
Proof.
  unfold Filter.matches_parsed, Filter_condition.
  rewrite <- !any_matches_true.
  destruct (Filter.any_matches (Filter.hostname F) _); simpl.
  - destruct (Filter.path F) as [| m ms] eqn:Hp.
    + split; auto.
    + split; [auto |]. intros [_ [H | H]]; [discriminate | exact H].
  - split; [discriminate | intros [H _]; discriminate].
Qed.

Lemma Filter_matches_Some (F : Filter.t) (url : string) (parsed : ParseResult.t) :
  Filter.matches F url (Some parsed) = Ok (Filter.matches_parsed F parsed).
Proof. reflexivity. Qed.

Lemma Filter_matches_None (F : Filter.t) (url : string) :
  Filter.matches F url None
  = let! parsed := urlparse url in Ok (Filter.matches_parsed F parsed).
Proof. reflexivity. Qed.

End filter.

(** C4. Filter.matches answers true exactly when the host name of the
    parsed URL (the empty text when there is none) matches one of the
    hostname Matchers and, if the Filter has path Matchers, the path of the
    parsed URL matches one of them; with a parsed URL in hand it never
    raises.  On the reference library the host name is compared lower-cased
    and the path as written. *)
Theorem C4_Filter_matches_iff :
  (forall (L : PyLib) (F : Filter.t) (url : string),
     (forall parsed,
        Filter.matches F url (Some parsed) = Ok true
        <-> Filter_condition F parsed)
     /\ (forall parsed, exists b, Filter.matches F url (Some parsed) = Ok b)
     /\ (Filter.matches F url None = Ok true
         <-> exists parsed, urlparse url = Ok parsed
                            /\ Filter_condition F parsed))
  /\ Filter.matches (L := PyRef_lib) Ex.host_and_path
       "HTTP://EXAMPLE.COM/a?q=1" None = Ok true
  /\ Filter.matches (L := PyRef_lib) Ex.host_and_path
       "http://example.com/A" None = Ok false
  /\ Filter.matches (L := PyRef_lib) Ex.host_and_path
       "http://example.com/%61" None = Ok false
  /\ Filter.matches (L := PyRef_lib) Ex.host_and_path
       "mailto:someone" None = Ok false
  /\ Filter.matches (L := PyRef_lib) Ex.any_host
       "mailto:someone" None = Ok true.
Proof.
  split; [| repeat split; reflexivity].
  intros L F url. split; [| split].
  - intros parsed. rewrite Filter_matches_Some, <- matches_parsed_true.
    split; [intros H; inversion H; reflexivity | intros ->; reflexivity].
  - intros parsed. eexists. apply Filter_matches_Some.
  - rewrite Filter_matches_None, bind_Ok. split.
    + intros (parsed & Hu & Hm). exists parsed. split; [exact Hu |].
      apply matches_parsed_true. congruence.
    + intros (parsed & Hu & Hc). exists parsed. split; [exact Hu |].
      apply matches_parsed_true in Hc. now rewrite Hc.
Qed.

(** C5. Two URLs whose parse results have the same host name and the same
    path get the same answer from every Filter, whatever their query
    strings and fragments are. *)
Theorem C5_Filter_ignores_query `{L : PyLib} (F : Filter.t)
    (u1 u2 : string) (p1 p2 : ParseResult.t) :
  urlparse u1 = Ok p1 ->
  urlparse u2 = Ok p2 ->
  parsed_hostname p1 = parsed_hostname p2 ->
  ParseResult.path p1 = ParseResult.path p2 ->
  Filter.matches F u1 None = Filter.matches F u2 None
  /\ Filter.matches F u1 (Some p1) = Filter.matches F u2 (Some p2).
Proof.
  intros H1 H2 Hh Hp.
  assert (Hm : Filter.matches_parsed F p1 = Filter.matches_parsed F p2).
  { unfold Filter.matches_parsed. now rewrite Hh, Hp. }
  rewrite !Filter_matches_None, !Filter_matches_Some, H1, H2. simpl.
  now rewrite Hm.
Qed.

Lemma C5_witness :
  Filter.matches (L := PyRef_lib) Ex.host_and_path
    "https://example.com/a?u=abc" None
  = Filter.matches (L := PyRef_lib) Ex.host_and_path
      "https://EXAMPLE.com/a?v=1&w=2#top" None.
Proof.
  apply (C5_Filter_ignores_query (L := PyRef_lib) Ex.host_and_path
           "https://example.com/a?u=abc" "https://EXAMPLE.com/a?v=1&w=2#top"
           (ParseResult.mk "https" "example.com" "/a" "" "u=abc" "")
           (ParseResult.mk "https" "EXAMPLE.com" "/a" "" "v=1&w=2" "top"));
    reflexivity.
Defined.

(** ** C7: extraction from the query string *)

Section query_param.
Context `{L : PyLib}.

Lemma select_value_skip (qs : gmap string (list string)) (sel : ParamSelect)
    (before rest : list string) :
  (forall k, In k before -> default [] (qs !! k) = []) ->
  Extract.select_value qs sel (before ++ rest)
  = Extract.select_value qs sel rest.
Proof.
  induction before as [| k before IH]; intros H; simpl; [reflexivity |].
  rewrite (H k (or_introl eq_refl)). apply IH.
  intros k' Hk'. apply H. now right.
Qed.

Lemma select_value_None (qs : gmap string (list string)) (sel : ParamSelect)
    (keys : list string) :
  Extract.select_value qs sel keys = None
  <-> forall k, In k keys -> default [] (qs !! k) = [].
Proof.
  induction keys as [| k keys IH]; simpl.
  - split; [intros _ k [] | reflexivity].
  - destruct (default [] (qs !! k)) as [| v vs] eqn:Hk.
    + rewrite IH. split.
      * intros H k' [<- | Hk']; [exact Hk | now apply H].
      * intros H k' Hk'. apply H. now right.
    + split; [discriminate |].
      intros H. specialize (H k (or_introl eq_refl)). congruence.
Qed.

Lemma last_snoc (vs : list string) (w d : string) :
  List.last (vs ++ [w]) d = w.
Proof. apply List.last_last. Qed.

Lemma Extract_call_query_param (e : Extract.t) (url : string)
    (parsed : ParseResult.t) :
  Extract.source e = QUERY_PARAM ->
  Extract.call e url (Some parsed)
  = Ok (Extract.select_value (parse_qs (ParseResult.query parsed))
          (Extract.select e) (Extract.keys e)).
Proof. intros H. unfold Extract.call. simpl. rewrite H. reflexivity. Qed.

End query_param.

(** C7 as stated fails on its example: the values of the multi-map are
    already percent-decoded, so the last "u" is "http://other.com" and not
    "http%3A%2F%2Fother.com". *)
Lemma C7_counterexample :
  let url :=
    "https://protect.example.com/?u=http%3A%2F%2Fexample.com&u=http%3A%2F%2Fother.com"
  in
  Extract.call (L := PyRef_lib) (Ex.query_param ["u"] LAST) url None
  = Ok (Some "http://other.com")
  /\ Extract.call (L := PyRef_lib) (Ex.query_param ["u"] LAST) url None
     <> Ok (Some "http%3A%2F%2Fother.com").
Proof.
  assert (H : Extract.call (L := PyRef_lib) (Ex.query_param ["u"] LAST)
                "https://protect.example.com/?u=http%3A%2F%2Fexample.com&u=http%3A%2F%2Fother.com"
                None = Ok (Some "http://other.com")) by (vm_compute; reflexivity).
  split; [exact H |]. rewrite H. discriminate.
Qed.

(** C7, amended.  A query_param Extractor looks the configured keys up, in
    order, in the multi-map of the query string and answers at the first
    key that has a value: with the first value of that key under
    select=first, with the last one under select=last; it answers nothing
    exactly when no configured key has a value.  On the reference library
    the values are percent-decoded by the parsing of the query string:
    keys ["u"] with select=last on
    u=http%3A%2F%2Fexample.com&u=http%3A%2F%2Fother.com gives
    "http://other.com", which a later url_decode leaves as it is. *)
Theorem C7_query_param_select :
  (forall (L : PyLib) (e : Extract.t) (url : string) (parsed : ParseResult.t),
     Extract.source e = QUERY_PARAM ->
     let qs := parse_qs (ParseResult.query parsed) in
     (forall before k after v vs,
        Extract.keys e = before ++ k :: after ->
        (forall k', In k' before -> default [] (qs !! k') = []) ->
        qs !! k = Some (v :: vs) ->
        Extract.select e = FIRST ->
        Extract.call e url (Some parsed) = Ok (Some v))
     /\ (forall before k after vs w,
          Extract.keys e = before ++ k :: after ->
          (forall k', In k' before -> default [] (qs !! k') = []) ->
          qs !! k = Some (vs ++ [w]) ->
          Extract.select e = LAST ->
          Extract.call e url (Some parsed) = Ok (Some w))
     /\ (Extract.call e url (Some parsed) = Ok None
         <-> forall k, In k (Extract.keys e) -> default [] (qs !! k) = []))
  /\ (let url :=
        "https://protect.example.com/?u=http%3A%2F%2Fexample.com&u=http%3A%2F%2Fother.com"
      in
      Extract.call (L := PyRef_lib) (Ex.query_param ["u"] LAST) url None
      = Ok (Some "http://other.com")
      /\ Extract.call (L := PyRef_lib) (Ex.query_param ["u"] FIRST) url None
         = Ok (Some "http://example.com")
      /\ Extract.call (L := PyRef_lib) (Ex.query_param ["v"; "u"] LAST) url None
         = Ok (Some "http://other.com")
      /\ Extract.call (L := PyRef_lib) (Ex.query_param ["v"] LAST) url None
         = Ok None
      /\ Transform.call (L := PyRef_lib) Ex.url_decode "http://other.com"
         = Ok "http://other.com").
Proof.
  split; [| repeat split; vm_compute; reflexivity].
  intros L e url parsed Hsrc qs.
  rewrite (Extract_call_query_param e url parsed Hsrc). fold qs.
  split; [| split].
  - intros before k after v vs Hk Hb Hv Hsel.
    rewrite Hk, select_value_skip by exact Hb. simpl.
    rewrite Hv, Hsel. reflexivity.
  - intros before k after vs w Hk Hb Hv Hsel.
    rewrite Hk, select_value_skip by exact Hb. simpl.
    rewrite Hv, Hsel. simpl.
    destruct vs as [| v vs]; simpl; [reflexivity |].
    change (Ok (Some (List.last ((v :: vs) ++ [w]) v)) = Ok (Some w)).
    now rewrite last_snoc.
  - rewrite <- (select_value_None qs (Extract.select e)). split.
    + intros H. injection H as H. exact H.
    + intros H. now rewrite H.
Qed.

Lemma C7_witness :
  Extract.call (L := PyRef_lib) (Ex.query_param ["u"] LAST)
    "https://protect.example.com/?u=a%2Fb&u=c%2Fd"
    (Some (ParseResult.mk "https" "protect.example.com" "/" ""
             "u=a%2Fb&u=c%2Fd" ""))
  = Ok (Some "c/d").
Proof.
  apply (proj1 (proj2 (proj1 C7_query_param_select PyRef_lib
                         (Ex.query_param ["u"] LAST)
                         "https://protect.example.com/?u=a%2Fb&u=c%2Fd"
                         (ParseResult.mk "https" "protect.example.com" "/" ""
                            "u=a%2Fb&u=c%2Fd" "")
                         eq_refl))
           [] "u" [] ["a/b"] "c/d").
  - reflexivity.
  - intros k' [].
  - vm_compute. reflexivity.
  - reflexivity.
Defined.

(** ** Evaluation of a Rule and of a RuleSet *)

Section evaluation.
Context `{L : PyLib}.

(** Handing the parse result over gives what parsing again would give. *)
Lemma Rule_call_parsed (r : Rule.t) (url : string) (parsed : ParseResult.t) :
  urlparse url = Ok parsed ->
  Rule.call r url None = Rule.call r url (Some parsed).
Proof. intros H. unfold Rule.call. simpl. rewrite H. reflexivity. Qed.

Lemma Rule_call_Some (r : Rule.t) (url : string) (parsed : ParseResult.t) :
  Rule.call r url (Some parsed)
  = if negb (Filter.matches_parsed (Rule.filter r) parsed) then Ok None
    else
      let! url' := Transform.call_all (Rule.pre_extract r) url in
      let! result :=
        Extract.call (Rule.extract r) url'
          (match Rule.pre_extract r with
           | [] => Some parsed
           | _ => None
           end) in
      match result with
      | None => Ok None
      | Some v =>
          let! v' := Transform.call_all (Rule.post_extract r) v in
          Ok (Some v')
      end.
Proof. reflexivity. Qed.

Lemma Rule_call_no_match (r : Rule.t) (url : string) (parsed : ParseResult.t) :
  Filter.matches (Rule.filter r) url (Some parsed) = Ok false ->
  Rule.call r url (Some parsed) = Ok None.
Proof.
  rewrite Filter_matches_Some, Rule_call_Some. intros H.
  injection H as ->. reflexivity.
Qed.

Lemma Rule_call_value_matches (r : Rule.t) (url : string)
    (parsed : option ParseResult.t) (v : string) :
  Rule.call r url parsed = Ok (Some v) ->
  Filter.matches (Rule.filter r) url parsed = Ok true.
Proof.
  unfold Rule.call, Filter.matches.
  destruct (parsed_or_urlparse parsed url) as [p | e]; simpl; [| discriminate].
  destruct (Filter.matches_parsed (Rule.filter r) p); simpl;
    [reflexivity | discriminate].
Qed.

(** The loop of [RuleSet.call]. *)
Lemma call_rules_skip (before rest : list Rule.t) (url : string)
    (parsed : ParseResult.t) :
  Forall (fun r => Rule.call r url (Some parsed) = Ok None) before ->
  RuleSet.call_rules (before ++ rest) url parsed
  = RuleSet.call_rules rest url parsed.
Proof.
  induction 1 as [| r before Hr _ IH]; simpl; [reflexivity |].
  rewrite Hr. simpl. exact IH.
Qed.

Lemma call_rules_None (rules : list Rule.t) (url : string)
    (parsed : ParseResult.t) :
  RuleSet.call_rules rules url parsed = Ok None
  <-> Forall (fun r => Rule.call r url (Some parsed) = Ok None) rules.
Proof.
  induction rules as [| r rules IH]; simpl.
  - split; [constructor | reflexivity].
  - destruct (Rule.call r url (Some parsed)) as [[v |] | e] eqn:Hr; simpl.
    + split; [discriminate | intros H; inversion H; congruence].
    + rewrite IH. split.
      * intros H. now constructor.
      * intros H. inversion H. assumption.
    + split; [discriminate | intros H; inversion H; congruence].
Qed.

(** An outcome other than "nothing" is the outcome of the first rule that
    gives one. *)
Lemma call_rules_first (rules : list Rule.t) (url : string)
    (parsed : ParseResult.t) (out : result (option string)) :
  out <> Ok None ->
  RuleSet.call_rules rules url parsed = out
  <-> exists before r after,
        rules = before ++ r :: after
        /\ Forall (fun r' => Rule.call r' url (Some parsed) = Ok None) before
        /\ Rule.call r url (Some parsed) = out.
Proof.
  intros Hout. split.
  - induction rules as [| r rules IH]; simpl.
    + congruence.
    + destruct (Rule.call r url (Some parsed)) as [[v |] | e] eqn:Hr; simpl.
      * intros <-. exists [], r, rules. auto.
      * intros H. destruct (IH H) as (before & r' & after & -> & Hb & Hr').
        exists (r :: before), r', after. auto.
      * intros <-. exists [], r, rules. auto.
  - intros (before & r & after & -> & Hb & Hr).
    rewrite call_rules_skip by exact Hb. simpl. rewrite Hr.
    destruct out as [[v |] | e]; simpl; congruence.
Qed.

Lemma RuleSet_call_parsed (rs : RuleSet.t) (url : string)
    (parsed : ParseResult.t) :
  urlparse url = Ok parsed ->
  RuleSet.call rs url = RuleSet.call_rules (RuleSet.rules rs) url parsed.
Proof. intros H. unfold RuleSet.call. rewrite H. reflexivity. Qed.

Lemma RuleSet_call_unparsed (rs : RuleSet.t) (url : string) (e : exception) :
  urlparse url = Raise e -> RuleSet.call rs url = Raise e.
Proof. intros H. unfold RuleSet.call. rewrite H. reflexivity. Qed.

Lemma RuleSet_call_Ok (rs : RuleSet.t) (url : string) (o : option string) :
  RuleSet.call rs url = Ok o ->
  exists parsed, urlparse url = Ok parsed.
Proof.
  unfold RuleSet.call. destruct (urlparse url) as [p | e]; simpl;
    [eauto | discriminate].
Qed.

Lemma any_filter_matches_existsb (rules : list Rule.t) (url : string)
    (parsed : ParseResult.t) :
  any_filter_matches rules url parsed
  = Ok (existsb (fun r => Filter.matches_parsed (Rule.filter r) parsed) rules).
Proof.
  induction rules as [| r rules IH]; simpl; [reflexivity |].
  destruct (Filter.matches_parsed (Rule.filter r) parsed); simpl;
    [reflexivity | exact IH].
Qed.

End evaluation.

(** ** C2: the first result wins *)

(** C2. RuleSet.call parses the URL once and hands the parse result to each
    rule, which gives what the rule would give by parsing again; its result
    is the result of the first rule, in list order, that gives a value, the
    rules before it giving nothing; it is nothing exactly when the URL is
    parsed and every rule gives nothing.  In particular, of two rules whose
    Filters both match and which both extract a value, the earlier one
    decides. *)
Theorem C2_first_result_wins `{L : PyLib} (rs : RuleSet.t) (url : string) :
  RuleSet.call rs url
  = (let! parsed := urlparse url in
     RuleSet.call_rules (RuleSet.rules rs) url parsed)
  /\ (forall parsed r,
        urlparse url = Ok parsed ->
        Rule.call r url (Some parsed) = Rule.call r url None)
  /\ (forall parsed before r after v,
        urlparse url = Ok parsed ->
        RuleSet.rules rs = before ++ r :: after ->
        Forall (fun r' => Rule.call r' url (Some parsed) = Ok None) before ->
        Rule.call r url (Some parsed) = Ok (Some v) ->
        RuleSet.call rs url = Ok (Some v))
  /\ (forall v,
        RuleSet.call rs url = Ok (Some v) ->
        exists parsed before r after,
          urlparse url = Ok parsed
          /\ RuleSet.rules rs = before ++ r :: after
          /\ Forall (fun r' => Rule.call r' url (Some parsed) = Ok None) before
          /\ Rule.call r url (Some parsed) = Ok (Some v))
  /\ (RuleSet.call rs url = Ok None
      <-> exists parsed,
            urlparse url = Ok parsed
            /\ Forall (fun r => Rule.call r url (Some parsed) = Ok None)
                 (RuleSet.rules rs))
  /\ (forall parsed r1 r2 rest v1 v2,
        urlparse url = Ok parsed ->
        RuleSet.rules rs = r1 :: r2 :: rest ->
        Filter.matches (Rule.filter r1) url (Some parsed) = Ok true ->
        Filter.matches (Rule.filter r2) url (Some parsed) = Ok true ->
        Rule.call r1 url (Some parsed) = Ok (Some v1) ->
        Rule.call r2 url (Some parsed) = Ok (Some v2) ->
        RuleSet.call rs url = Ok (Some v1)).
Proof.
  split; [reflexivity |].
  split; [intros parsed r H; symmetry; now apply Rule_call_parsed |].
  split; [| split; [| split]].
  - intros parsed before r after v Hu Hrs Hb Hr.
    rewrite (RuleSet_call_parsed rs url parsed Hu).
    apply call_rules_first; [discriminate |]. eauto 6.
  - intros v H. destruct (RuleSet_call_Ok rs url _ H) as [parsed Hu].
    rewrite (RuleSet_call_parsed rs url parsed Hu) in H.
    apply call_rules_first in H; [| discriminate].
    destruct H as (before & r & after & H1 & H2 & H3).
    exists parsed, before, r, after. auto.
  - split.
    + intros H. destruct (RuleSet_call_Ok rs url _ H) as [parsed Hu].
      exists parsed. split; [exact Hu |].
      apply call_rules_None. now rewrite <- (RuleSet_call_parsed rs url parsed Hu).
    + intros (parsed & Hu & Hall).
      rewrite (RuleSet_call_parsed rs url parsed Hu). now apply call_rules_None.
  - intros parsed r1 r2 rest v1 v2 Hu Hrs _ _ H1 _.
    rewrite (RuleSet_call_parsed rs url parsed Hu), Hrs. simpl.
    rewrite H1. reflexivity.
Qed.

Lemma C2_witness :
  RuleSet.call (L := PyRef_lib) (RuleSet.mk [Ex.last_u; Ex.plain])
    "https://protect.example.com/?u=one&u=two"
  = Ok (Some "two").
Proof.
  apply (proj2 (proj2 (proj2 (proj2 (proj2
           (C2_first_result_wins (L := PyRef_lib)
              (RuleSet.mk [Ex.last_u; Ex.plain])
              "https://protect.example.com/?u=one&u=two")))))
           (ParseResult.mk "https" "protect.example.com" "/" "" "u=one&u=two" "")
           Ex.last_u Ex.plain [] "two" "one").
  - vm_compute. reflexivity.
  - reflexivity.
  - vm_compute. reflexivity.
  - vm_compute. reflexivity.
  - vm_compute. reflexivity.
  - vm_compute. reflexivity.
Defined.

(** ** C3: a value implies a matching Filter *)

(** C3. Whenever a Rule gives a value its Filter matched, and whenever
    RuleSet.call gives a value is_protected_link (the check of the Filters
    alone) answers true.  The converse fails: on the reference library a
    link of the right host without the parameter is recognised and gives
    nothing. *)
Theorem C3_contains_match_weaker :
  (forall (L : PyLib) (r : Rule.t) (url : string)
          (parsed : option ParseResult.t) (v : string),
     Rule.call r url parsed = Ok (Some v) ->
     Filter.matches (Rule.filter r) url parsed = Ok true)
  /\ (forall (L : PyLib) (base : result RuleSet.t) (rs : RuleSet.t)
             (url v : string),
        RuleSet.call rs url = Ok (Some v) ->
        is_protected_link base url (Some rs) = Ok true)
  /\ (forall base : result RuleSet.t,
        is_protected_link (L := PyRef_lib) base
          "https://protect.example.com/?d=example.com" (Some Ex.two_rules)
        = Ok true
        /\ RuleSet.call (L := PyRef_lib) Ex.two_rules
             "https://protect.example.com/?d=example.com"
           = Ok None).
Proof.
  split; [| split].
  - intros L r url parsed v. apply Rule_call_value_matches.
  - intros L base rs url v H.
    destruct (RuleSet_call_Ok rs url _ H) as [parsed Hu].
    rewrite (RuleSet_call_parsed rs url parsed Hu) in H.
    apply call_rules_first in H; [| discriminate].
    destruct H as (before & r & after & Hrs & _ & Hr).
    apply Rule_call_value_matches in Hr. rewrite Filter_matches_Some in Hr.
    injection Hr as Hr.
    unfold is_protected_link. simpl. rewrite Hu. simpl.
    rewrite any_filter_matches_existsb. f_equal.
    apply existsb_exists. exists r. split; [| exact Hr].
    rewrite Hrs. apply in_or_app. right. now left.
  - intros base. split; vm_compute; reflexivity.
Qed.

Lemma C3_witness :
  is_protected_link (L := PyRef_lib) (Raise (ValueError "no rule files"))
    "https://protect.example.com/?u=aHR0cDovL2EuYg==" (Some Ex.two_rules)
  = Ok true.
Proof.
  apply (proj1 (proj2 C3_contains_match_weaker) PyRef_lib
           (Raise (ValueError "no rule files")) Ex.two_rules
           "https://protect.example.com/?u=aHR0cDovL2EuYg==" "http://a.b").
  vm_compute. reflexivity.
Defined.

(** ** C9: a URL that no Filter matches *)

(** C9 as stated fails where the URL cannot be parsed: "http://[" has an
    opening bracket without its closing one, no Filter answers true on it,
    and RuleSet.call raises the ValueError of urlparse. *)
Lemma C9_counterexample :
  Filter.matches (L := PyRef_lib) (Rule.filter Ex.encoded) "http://[" None
  = Raise (ValueError "Invalid IPv6 URL")
  /\ Filter.matches (L := PyRef_lib) (Rule.filter Ex.plain) "http://[" None
     = Raise (ValueError "Invalid IPv6 URL")
  /\ RuleSet.post_init (L := PyRef_lib) [Ex.encoded; Ex.plain]
     = Ok Ex.two_rules
  /\ RuleSet.call (L := PyRef_lib) Ex.two_rules "http://["
     = Raise (ValueError "Invalid IPv6 URL")
  /\ RuleSet.call (L := PyRef_lib) Ex.two_rules "http://[" <> Ok None.
Proof.
  assert (H : RuleSet.call (L := PyRef_lib) Ex.two_rules "http://["
              = Raise (ValueError "Invalid IPv6 URL"))
    by (vm_compute; reflexivity).
  split; [vm_compute; reflexivity |].
  split; [vm_compute; reflexivity |].
  split; [reflexivity |].
  split; [exact H |]. rewrite H. discriminate.
Qed.

(** C9, amended.  For every RuleSet and every URL that urlparse accepts,
    if no Rule's Filter matches then RuleSet.call gives nothing and raises
    no error; the same holds when every Filter, asked with the URL alone,
    answers false.  On a URL that urlparse rejects, RuleSet.call raises the
    error of urlparse, and so does every Filter. *)
Theorem C9_no_match_gives_nothing `{L : PyLib} (rs : RuleSet.t) (url : string) :
  (forall parsed,
     urlparse url = Ok parsed ->
     (forall r, In r (RuleSet.rules rs) ->
                Filter.matches (Rule.filter r) url (Some parsed) = Ok false) ->
     RuleSet.call rs url = Ok None)
  /\ (RuleSet.rules rs <> [] ->
      (forall r, In r (RuleSet.rules rs) ->
                 Filter.matches (Rule.filter r) url None = Ok false) ->
      RuleSet.call rs url = Ok None)
  /\ (forall e,
        urlparse url = Raise e ->
        RuleSet.call rs url = Raise e
        /\ forall F : Filter.t, Filter.matches F url None = Raise e).
Proof.
  assert (Hmain : forall parsed,
            urlparse url = Ok parsed ->
            (forall r, In r (RuleSet.rules rs) ->
                       Filter.matches (Rule.filter r) url (Some parsed)
                       = Ok false) ->
            RuleSet.call rs url = Ok None).
  { intros parsed Hu Hno.
    rewrite (RuleSet_call_parsed rs url parsed Hu).
    apply call_rules_None, List.Forall_forall.
    intros r Hr. apply Rule_call_no_match. auto. }
  split; [exact Hmain | split].
  - intros Hne Hno.
    destruct (RuleSet.rules rs) as [| r0 rules] eqn:Hrs; [congruence |].
    pose proof (Hno r0 (or_introl eq_refl)) as H0.
    rewrite Filter_matches_None in H0. apply bind_Ok in H0.
    destruct H0 as (parsed & Hu & _).
    apply (Hmain parsed Hu). intros r Hr.
    specialize (Hno r Hr). rewrite Filter_matches_None, Hu in Hno.
    exact Hno.
  - intros e Hu. split.
    + now apply RuleSet_call_unparsed.
    + intros F. rewrite Filter_matches_None, Hu. reflexivity.
Qed.

Lemma C9_witness :
  RuleSet.call (L := PyRef_lib) Ex.two_rules "http://example.com" = Ok None.
Proof.
  apply (proj1 (C9_no_match_gives_nothing (L := PyRef_lib) Ex.two_rules
                  "http://example.com")
           (ParseResult.mk "http" "example.com" "" "" "" "")).
  - vm_compute. reflexivity.
  - intros r [<- | [<- | []]]; vm_compute; reflexivity.
Defined.

(** ** C1: a Transform that fails to decode *)

Section decode_errors.
Context `{L : PyLib}.

(** Of the transforms that the constructor accepts only base64_decode can
    raise, and what it raises is the error of the decoding. *)
Lemma Transform_call_Raise (name : string) (value : option string)
    (t : Transform.t) (text : string) (e : exception) :
  Transform.post_init name value = Ok t ->
  Transform.call t text = Raise e ->
  name = "base64_decode"
  /\ (b64decode text = Raise e
      \/ exists b, b64decode text = Ok b /\ bytes_decode b = Raise e).
Proof.
  unfold Transform.post_init.
  destruct (name_in name _VALID_TRANSFORM_NAMES) eqn:Hvalid;
    cbn [negb]; [| discriminate].
  destruct (name_in name _PARAMETERIZED_TRANSFORMS) eqn:Hpar.
  - destruct value as [v |]; cbn; [| discriminate].
    intros H. injection H as <-.
    unfold name_in in Hpar. cbn in Hpar. rewrite orb_false_r in Hpar.
    apply String.eqb_eq in Hpar. subst name.
    unfold Transform.call. cbn. discriminate.
  - destruct value as [v |]; cbn; [discriminate |].
    intros H. injection H as <-.
    unfold name_in in Hpar, Hvalid. cbn in Hpar, Hvalid.
    rewrite orb_false_r in Hpar, Hvalid.
    unfold Transform.call. cbn [Transform.name Transform.value].
    destruct (String.eqb name "html_unescape") eqn:H1; [discriminate |].
    destruct (String.eqb name "url_decode") eqn:H2; [discriminate |].
    destruct (String.eqb_spec name "base64_decode") as [-> | Hb].
    + intros H. apply bind_Raise in H. auto.
    + rewrite Hpar in *.
      destruct (String.eqb name "proofpoint_v2_decode"); discriminate.
Qed.

(** A sequence of transforms raises what its first failing member raises. *)
Lemma call_all_Raise (ts : list Transform.t) (s : string) (e : exception) :
  Transform.call_all ts s = Raise e
  <-> exists ts1 t ts2 s',
        ts = ts1 ++ t :: ts2
        /\ Transform.call_all ts1 s = Ok s'
        /\ Transform.call t s' = Raise e.
Proof.
  revert s. induction ts as [| t ts IH]; intros s; simpl.
  - split; [discriminate |].
    intros (ts1 & t & ts2 & s' & H & _). now destruct ts1.
  - split.
    + intros H. apply bind_Raise in H. destruct H as [H | (s1 & H1 & H)].
      * exists [], t, ts, s. auto.
      * apply IH in H. destruct H as (ts1 & t' & ts2 & s' & -> & Hc & Ht).
        exists (t :: ts1), t', ts2, s'. simpl. rewrite H1. auto.
    + intros (ts1 & t' & ts2 & s' & Hts & Hc & Ht).
      destruct ts1 as [| t1 ts1]; simpl in *.
      * injection Hts as -> ->. injection Hc as ->. rewrite Ht. reflexivity.
      * injection Hts as -> ->. apply bind_Ok in Hc.
        destruct Hc as (s1 & H1 & Hc). rewrite H1. simpl.
        apply IH. exists ts1, t', ts2, s'. auto.
Qed.

Lemma Rule_call_Raise_pre (r : Rule.t) (url : string) (parsed : ParseResult.t)
    (e : exception) :
  Filter.matches (Rule.filter r) url (Some parsed) = Ok true ->
  Transform.call_all (Rule.pre_extract r) url = Raise e ->
  Rule.call r url (Some parsed) = Raise e.
Proof.
  rewrite Filter_matches_Some, Rule_call_Some. intros Hm Hpre.
  injection Hm as ->. simpl. rewrite Hpre. reflexivity.
Qed.

Lemma Rule_call_Raise_post (r : Rule.t) (url url' v : string)
    (parsed : ParseResult.t) (e : exception) :
  Filter.matches (Rule.filter r) url (Some parsed) = Ok true ->
  Transform.call_all (Rule.pre_extract r) url = Ok url' ->
  Extract.call (Rule.extract r) url'
    (match Rule.pre_extract r with
     | [] => Some parsed
     | _ => None
     end) = Ok (Some v) ->
  Transform.call_all (Rule.post_extract r) v = Raise e ->
  Rule.call r url (Some parsed) = Raise e.
Proof.
  rewrite Filter_matches_Some, Rule_call_Some. intros Hm Hpre Hex Hpost.
  injection Hm as ->. simpl. rewrite Hpre. simpl. rewrite Hex. simpl.
  rewrite Hpost. reflexivity.
Qed.

End decode_errors.

(** C1 as stated fails: the program catches no exception.  On the link
    below the Filter of [Ex.encoded] matches and "abc" is not the base64 of
    anything, so the rule raises; RuleSet.call raises too and never reaches
    [Ex.plain], which would have given "abc".  The same happens when the
    decoded bytes are not text ("/w==" is the byte FF). *)
Lemma C1_counterexample :
  let url := "https://protect.example.com/?u=abc" in
  Filter.matches (L := PyRef_lib) (Rule.filter Ex.encoded) url None = Ok true
  /\ Transform.call (L := PyRef_lib) Ex.base64_decode "abc"
     = Raise (BinasciiError "Incorrect padding")
  /\ Rule.call (L := PyRef_lib) Ex.encoded url None
     = Raise (BinasciiError "Incorrect padding")
  /\ Rule.call (L := PyRef_lib) Ex.encoded url None <> Ok None
  /\ Rule.call (L := PyRef_lib) Ex.plain url None = Ok (Some "abc")
  /\ RuleSet.call (L := PyRef_lib) Ex.two_rules url
     = Raise (BinasciiError "Incorrect padding")
  /\ Rule.call (L := PyRef_lib) Ex.encoded
       "https://protect.example.com/?u=/w==" None
     = Raise (UnicodeDecodeError "invalid start byte").
Proof.
  assert (H : Rule.call (L := PyRef_lib) Ex.encoded
                "https://protect.example.com/?u=abc" None
              = Raise (BinasciiError "Incorrect padding"))
    by (vm_compute; reflexivity).
  split; [vm_compute; reflexivity |].
  split; [vm_compute; reflexivity |].
  split; [exact H |].
  split; [rewrite H; discriminate |].
  repeat split; vm_compute; reflexivity.
Qed.

(** C1, amended.  When the Filter of a Rule matches and a Transform of the
    Rule raises, before the extraction or on the extracted value, Rule.call
    raises that error; and RuleSet.call raises it as well, without looking
    at the rules that follow, when the rules before gave nothing. *)
Theorem C1_decode_error_is_raised `{L : PyLib} (r : Rule.t) (url : string)
    (parsed : ParseResult.t) (e : exception) :
  Filter.matches (Rule.filter r) url (Some parsed) = Ok true ->
  (Transform.call_all (Rule.pre_extract r) url = Raise e
   \/ exists url' v,
        Transform.call_all (Rule.pre_extract r) url = Ok url'
        /\ Extract.call (Rule.extract r) url'
             (match Rule.pre_extract r with
              | [] => Some parsed
              | _ => None
              end) = Ok (Some v)
        /\ Transform.call_all (Rule.post_extract r) v = Raise e) ->
  Rule.call r url (Some parsed) = Raise e
  /\ (urlparse url = Ok parsed -> Rule.call r url None = Raise e)
  /\ (forall before after,
        urlparse url = Ok parsed ->
        Forall (fun r' => Rule.call r' url (Some parsed) = Ok None) before ->
        RuleSet.call (RuleSet.mk (before ++ r :: after)) url = Raise e).
Proof.
  intros Hm Hfail.
  assert (Hr : Rule.call r url (Some parsed) = Raise e).
  { destruct Hfail as [Hpre | (url' & v & Hpre & Hex & Hpost)].
    - now apply Rule_call_Raise_pre.
    - now apply (Rule_call_Raise_post r url url' v). }
  split; [exact Hr | split].
  - intros Hu. now rewrite (Rule_call_parsed r url parsed Hu).
  - intros before after Hu Hb.
    rewrite (RuleSet_call_parsed _ url parsed Hu). simpl.
    apply call_rules_first; [discriminate |].
    exists before, r, after. auto.
Qed.

Lemma C1_witness :
  Rule.call (L := PyRef_lib) Ex.encoded "https://protect.example.com/?u=abc"
    (Some (ParseResult.mk "https" "protect.example.com" "/" "" "u=abc" ""))
  = Raise (BinasciiError "Incorrect padding").
Proof.
  refine (proj1 (C1_decode_error_is_raised (L := PyRef_lib) Ex.encoded
                   "https://protect.example.com/?u=abc"
                   (ParseResult.mk "https" "protect.example.com" "/" ""
                      "u=abc" "")
                   (BinasciiError "Incorrect padding") _ _)).
  - vm_compute. reflexivity.
  - right. exists "https://protect.example.com/?u=abc", "abc".
    split; [reflexivity |]. split; vm_compute; reflexivity.
Defined.

(** ** The example rules are what the constructors build *)

Lemma Ex_constructed :
  Matcher.post_init (L := PyRef_lib) "protect.example.com"
  = Ok (Ex.exact "protect.example.com")
  /\ Filter.post_init (L := PyRef_lib) [Ex.exact "protect.example.com"] []
     = Ok (Ex.host "protect.example.com")
  /\ Extract.post_init (L := PyRef_lib) QUERY_PARAM ["u"] None FIRST
     = Ok (Ex.query_param ["u"] FIRST)
  /\ Transform.post_init "base64_decode" None
     = Ok Ex.base64_decode
  /\ Rule.post_init (L := PyRef_lib) "encoded" (Ex.host "protect.example.com")
       (Ex.query_param ["u"] FIRST) [] [Ex.base64_decode]
     = Ok Ex.encoded
  /\ Rule.post_init (L := PyRef_lib) "plain" (Ex.host "protect.example.com")
       (Ex.query_param ["u"] FIRST) [] []
     = Ok Ex.plain
  /\ RuleSet.post_init (L := PyRef_lib) [Ex.encoded; Ex.plain]
     = Ok Ex.two_rules
  /\ Matcher.post_init (L := PyRef_lib) "//"
     = Ok (Matcher.mk (L := PyRef_lib) "//" true "" (Some "")).
Proof. repeat split; reflexivity. Qed.

(** ** The tests of the repository, replayed on the reference library *)

Lemma tests_replayed (base : result RuleSet.t) :
  unsafe_link (L := PyRef_lib) base
    "https://urldefense.proofpoint.com/v2/url?u=http-3A__example.com&d=foo"
    (Some Ex.tested_rules)
  = Ok (Some "http://example.com")
  /\ unsafe_link (L := PyRef_lib) base
       "https://eu-central-1.protection.sophos.com/?d=sophos.com&u=aHR0cHM6Ly93d3cuc29waG9zLmNvbS9kZS1kZS9wcm9kdWN0cy9zb3Bob3MtZW1haWw=&i=NjJkMTA1NzEwNWJkNDAxMDc5ZDliN2Uy&t=OGE0L3MwTUdrUmE0NXdkWEtxSzdGdUMxS0JsRDFlK2tmcThqK2FSQjBYQT0=&h=0d5a5f867dd841698a9ee6af8c1d8846&s=AVNPUEhUT0NFTkNSWVBUSVaP4zyKF4qdzGb8PYXRFY2poaAOWE20fUiquUBd3DxoZw"
       (Some Ex.tested_rules)
     = Ok (Some "https://www.sophos.com/de-de/products/sophos-email")
  /\ unsafe_link (L := PyRef_lib) base "http://example.com"
       (Some Ex.tested_rules)
     = Ok None
  /\ is_protected_link (L := PyRef_lib) base
       "https://eu-central-1.protection.sophos.com/?d=example.com"
       (Some Ex.tested_rules)
     = Ok true
  /\ unsafe_link (L := PyRef_lib) base "http://example.com" None
     = (let! rs := base in RuleSet.call rs "http://example.com").
Proof.
  split; [vm_compute; reflexivity |].
  split; [vm_compute; reflexivity |].
  split; [vm_compute; reflexivity |].
  split; [vm_compute; reflexivity | reflexivity].
Qed.

(** * Further properties of the code *)

(** ** Matcher: what a raw pattern is turned into *)

Lemma substring_0_append (p q : string) :
  String.substring 0 (String.length p) (p +:+ q) = p.
Proof. induction p as [| c p IH]; simpl; [now destruct q | now rewrite IH]. Qed.

Lemma substring_length_append (p : string) (c : ascii) :
  String.substring (String.length p) 1 (p +:+ String c "") = String c "".
Proof. induction p as [| d p IH]; simpl; [reflexivity | exact IH]. Qed.

Lemma length_append_1 (p : string) (c : ascii) :
  String.length (p +:+ String c "") = S (String.length p).
Proof. induction p as [| d p IH]; simpl; [reflexivity | now rewrite IH]. Qed.

Lemma slice_1_m1_delimited (p : string) :
  slice_1_m1 ("/" +:+ p +:+ "/") = p.
Proof.
  unfold slice_1_m1.
  change ("/" +:+ p +:+ "/") with (String "/" (p +:+ "/")).
  cbn [String.length]. rewrite length_append_1.
  change (S (S (String.length p)) - 2) with (String.length p - 0).
  rewrite Nat.sub_0_r. cbn [String.substring].
  apply substring_0_append.
Qed.

Lemma endswith_delimited (p : string) :
  endswith "/" ("/" +:+ p +:+ "/") = true.
Proof.
  unfold endswith.
  change ("/" +:+ p +:+ "/") with (String "/" (p +:+ "/")).
  cbn [String.length]. rewrite length_append_1.
  change (S (S (String.length p)) - 1) with (S (String.length p)).
  cbn [String.substring Nat.leb andb].
  rewrite substring_length_append. reflexivity.
Qed.

(** X1. A raw pattern that is not empty and is not enclosed in slashes (it
    is shorter than two characters, or does not start with a slash, or does
    not end with one) always gives a Matcher, without any regular
    expression being compiled, and this Matcher matches a value exactly
    when the value is the raw pattern itself. *)
Theorem X1_Matcher_exact_round_trip `{L : PyLib} (raw : string) :
  raw <> "" ->
  (String.length raw < 2 \/ startswith "/" raw = false
   \/ endswith "/" raw = false) ->
  Matcher.post_init raw = Ok (Matcher.mk raw false raw None)
  /\ forall v, Matcher.matches (Matcher.mk raw false raw None) v = true
               <-> v = raw.
Proof.
  intros Hne Hform. split.
  - unfold Matcher.post_init.
    destruct (String.eqb_spec raw "") as [-> | _]; [contradiction |].
    assert (Hre : (2 <=? String.length raw)%nat && startswith "/" raw
                  && endswith "/" raw = false).
    { destruct Hform as [H | [H | H]].
      - apply Nat.leb_gt in H. now rewrite H.
      - rewrite H. now rewrite andb_false_r.
      - rewrite H. now rewrite andb_false_r. }
    rewrite Hre. reflexivity.
  - intros v. unfold Matcher.matches. simpl. apply String.eqb_eq.
Qed.

Lemma X1_witness :
  Matcher.post_init (L := PyRef_lib) "/v2/url"
  = Ok (Matcher.mk (L := PyRef_lib) "/v2/url" false "/v2/url" None).
Proof.
  refine (proj1 (X1_Matcher_exact_round_trip (L := PyRef_lib) "/v2/url" _ _)).
  - discriminate.
  - right. right. reflexivity.
Defined.

(** X2. For every text p, the raw pattern "/p/" is compiled as the regular
    expression p, the text between the two slashes, whatever p holds (also
    when p is empty or has slashes of its own): construction fails exactly
    when p does not compile, and the Matcher built matches a value exactly
    when a search for p in the value finds a match. *)
Theorem X2_Matcher_regex_between_slashes `{L : PyLib} (p : string) :
  Matcher.post_init ("/" +:+ p +:+ "/")
  = match re_compile p with
    | Some c => Ok (Matcher.mk ("/" +:+ p +:+ "/") true p (Some c))
    | None => Raise (ValueError "invalid regex")
    end
  /\ forall c v,
       Matcher.matches (Matcher.mk ("/" +:+ p +:+ "/") true p (Some c)) v
       = true
       <-> exists m, re_search c v = Some m.
Proof.
  split.
  - unfold Matcher.post_init.
    change (String.eqb ("/" +:+ p +:+ "/") "") with false.
    assert (Hlen : (2 <=? String.length ("/" +:+ p +:+ "/"))%nat = true).
    { change ("/" +:+ p +:+ "/") with (String "/" (p +:+ "/")).
      cbn [String.length]. rewrite length_append_1. reflexivity. }
    assert (Hstart : startswith "/" ("/" +:+ p +:+ "/") = true).
    { change ("/" +:+ p +:+ "/") with (String "/" (p +:+ "/")).
      unfold startswith. simpl. now destruct (p +:+ "/"). }
    rewrite Hlen, Hstart, endswith_delimited. cbn [andb].
    rewrite slice_1_m1_delimited. reflexivity.
  - intros c v. unfold Matcher.matches. simpl.
    destruct (re_search c v) as [m |]; split; eauto; try discriminate.
    intros [m Hm]. discriminate.
Qed.

(** X3. Constructing a Matcher fails exactly in two cases: the raw pattern
    is empty, or it is enclosed in slashes (at least two characters, the
    first and the last a slash) and the text between them does not compile
    as a regular expression. *)
Theorem X3_Matcher_construction_fails_iff `{L : PyLib} (raw : string) :
  (exists e, Matcher.post_init raw = Raise e)
  <-> raw = ""
      \/ (2 <= String.length raw /\ startswith "/" raw = true
          /\ endswith "/" raw = true
          /\ re_compile (slice_1_m1 raw) = None).
Proof.
  unfold Matcher.post_init.
  destruct (String.eqb_spec raw "") as [-> | Hne].
  - split; [auto | intros _; eauto].
  - destruct ((2 <=? String.length raw)%nat && startswith "/" raw
              && endswith "/" raw) eqn:Hre.
    + apply andb_prop in Hre as [Hre H3]. apply andb_prop in Hre as [H1 H2].
      apply Nat.leb_le in H1.
      destruct (re_compile (slice_1_m1 raw)) as [c |] eqn:Hc.
      * split; [intros [e He]; discriminate |].
        intros [H | (_ & _ & _ & H)]; [contradiction | discriminate].
      * split; [auto 6 | intros _; eauto].
    + split; [intros [e He]; discriminate |].
      intros [H | (H1 & H2 & H3 & _)]; [contradiction |].
      apply Nat.leb_le in H1. rewrite H1, H2, H3 in Hre. discriminate.
Qed.

(** ** Transform: construction and application *)

(** X4. A Transform that the constructor accepted can only raise while
    decoding base64: if applying it raises, its name is base64_decode and
    the error is that of b64decode or of decoding the bytes as text.  In
    particular the branches for an unknown name and for a prepend without
    value are never reached, and every other accepted Transform gives a
    text for every input. *)
Theorem X4_Transform_raises_only_decoding `{L : PyLib} (name : string)
    (value : option string) (t : Transform.t) :
  Transform.post_init name value = Ok t ->
  (forall text e,
     Transform.call t text = Raise e ->
     name = "base64_decode"
     /\ (b64decode text = Raise e
         \/ exists b, b64decode text = Ok b /\ bytes_decode b = Raise e))
  /\ (name <> "base64_decode" ->
      forall text, exists out, Transform.call t text = Ok out).
Proof.
  intros Hnew.
  assert (H : forall text e,
            Transform.call t text = Raise e ->
            name = "base64_decode"
            /\ (b64decode text = Raise e
                \/ exists b, b64decode text = Ok b /\ bytes_decode b = Raise e))
    by (intros text e; apply (Transform_call_Raise name value t text e Hnew)).
  split; [exact H |].
  intros Hname text.
  destruct (Transform.call t text) as [out | e] eqn:Hc; [eauto |].
  destruct (H text e Hc) as [Hb _]. contradiction.
Qed.

Lemma X4_witness :
  exists out,
    Transform.call (L := PyRef_lib) (Transform.mk "prepend" (Some "https://"))
      "example.com" = Ok out.
Proof.
  refine (proj2 (X4_Transform_raises_only_decoding (L := PyRef_lib)
                   "prepend" (Some "https://")
                   (Transform.mk "prepend" (Some "https://")) _) _
            "example.com").
  - reflexivity.
  - discriminate.
Defined.

(** X5. The constructor of Transform accepts exactly two shapes: the name
    prepend together with a value, and one of html_unescape, url_decode,
    base64_decode, proofpoint_v2_decode without a value; every other
    name, a prepend without value and a value given to another name are
    refused. *)
Theorem X5_Transform_construction_iff (name : string) (value : option string)
    (t : Transform.t) :
  Transform.post_init name value = Ok t
  <-> t = Transform.mk name value
      /\ ((name = "prepend" /\ exists v, value = Some v)
          \/ (In name ["html_unescape"; "url_decode"; "base64_decode";
                       "proofpoint_v2_decode"]
              /\ value = None)).
Proof.
  unfold Transform.post_init, name_in, _VALID_TRANSFORM_NAMES,
    _PARAMETERIZED_TRANSFORMS. cbn [existsb In].
  rewrite !orb_false_r.
  destruct (String.eqb_spec name "prepend") as [-> | Hp].
  - cbn. destruct value as [v |]; cbn.
    + split.
      * intros H. injection H as <-. split; [reflexivity |]. left. eauto.
      * intros [-> _]. reflexivity.
    + split; [discriminate |].
      intros [_ [[_ [v Hv]] | [H _]]]; [discriminate |].
      repeat destruct H as [H | H]; try discriminate; contradiction.
  - destruct (String.eqb_spec name "html_unescape") as [-> | H1];
      [| destruct (String.eqb_spec name "url_decode") as [-> | H2];
         [| destruct (String.eqb_spec name "base64_decode") as [-> | H3];
            [| destruct (String.eqb_spec name "proofpoint_v2_decode")
                 as [-> | H4]]]];
      cbn.
    1-4: destruct value as [v |]; cbn;
      [ split; [discriminate |];
        intros [_ [[H _] | [_ H]]]; discriminate
      | split;
        [ intros H; injection H as <-; split; [reflexivity |];
          right; split; [tauto | reflexivity]
        | intros [-> _]; reflexivity ] ].
    split; [discriminate |].
    intros [_ [[H _] | [H _]]]; [contradiction |].
    repeat destruct H as [H | H]; try congruence; contradiction.
Qed.

Lemma call_all_app `{L : PyLib} (ts1 ts2 : list Transform.t) (s : string) :
  Transform.call_all (ts1 ++ ts2) s
  = let! s' := Transform.call_all ts1 s in Transform.call_all ts2 s'.
Proof.
  revert s. induction ts1 as [| t ts1 IH]; intros s; simpl; [reflexivity |].
  destruct (Transform.call t s) as [s1 | e]; simpl; [apply IH | reflexivity].
Qed.

(** X6. Transforms added at the end of a Rule's post_extract work on the
    result of the Rule as it was: the longer Rule gives nothing and raises
    where the shorter one does, and where the shorter one gives a value the
    longer one gives that value run through the added Transforms, in
    order. *)
Theorem X6_post_extract_composes `{L : PyLib} (r : Rule.t)
    (ts : list Transform.t) (url : string) (parsed : option ParseResult.t) :
  Rule.call
    (Rule.mk (Rule.name r) (Rule.filter r) (Rule.extract r)
       (Rule.pre_extract r) (Rule.post_extract r ++ ts))
    url parsed
  = let! o := Rule.call r url parsed in
    match o with
    | None => Ok None
    | Some v => let! v' := Transform.call_all ts v in Ok (Some v')
    end.
Proof.
  unfold Rule.call. cbn [Rule.filter Rule.extract Rule.pre_extract
                          Rule.post_extract].
  destruct (parsed_or_urlparse parsed url) as [p | e]; simpl; [| reflexivity].
  destruct (Filter.matches_parsed (Rule.filter r) p); simpl; [| reflexivity].
  destruct (Transform.call_all (Rule.pre_extract r) url) as [url' | e];
    simpl; [| reflexivity].
  destruct (Extract.call (Rule.extract r) url' _) as [[v |] | e]; simpl;
    try reflexivity.
  rewrite call_all_app.
  destruct (Transform.call_all (Rule.post_extract r) v) as [v1 | e]; simpl;
    reflexivity.
Qed.

(** ** proofpoint_v2_decode on ordinary text *)

Lemma sub_without_hyphen (s : string) :
  ~ In "-"%char (list_ascii_of_string s) -> _PROOFPOINT_V2_RE_sub s = s.
Proof.
  induction s as [| c s IH]; simpl; [reflexivity |].
  intros H. destruct (Ascii.eqb_spec c "-") as [-> | Hc]; [tauto |].
  rewrite IH by tauto. reflexivity.
Qed.

Lemma replace_char_absent_id (old new : ascii) (s : string) :
  ~ In old (list_ascii_of_string s) -> replace_char old new s = s.
Proof.
  induction s as [| c s IH]; simpl; [reflexivity |].
  intros H. destruct (Ascii.eqb_spec c old) as [-> | Hc]; [tauto |].
  rewrite IH by tauto. reflexivity.
Qed.

Lemma replace_char_length (old new : ascii) (s : string) :
  String.length (replace_char old new s) = String.length s.
Proof. induction s as [| c s IH]; simpl; [reflexivity | now rewrite IH]. Qed.

Lemma length_append (s1 s2 : string) :
  String.length (s1 +:+ s2) = String.length s1 + String.length s2.
Proof. induction s1 as [| c s1 IH]; simpl; [reflexivity | now rewrite IH]. Qed.

Lemma chr_length (n : N) : String.length (chr n) <= 2.
Proof. unfold chr. destruct (n <? 128)%N; simpl; lia. Qed.

Lemma sub_length_bounded (n : nat) (s : string) :
  String.length s <= n ->
  String.length (_PROOFPOINT_V2_RE_sub s) <= String.length s.
Proof.
  revert s. induction n as [| n IH]; intros s Hn.
  - destruct s; simpl in *; [lia | lia].
  - destruct s as [| c s]; [simpl; lia |].
    rewrite _PROOFPOINT_V2_RE_sub_step.
    destruct (_PROOFPOINT_V2_RE_match (String c s)) as [[k rest] |] eqn:Hm.
    + unfold _PROOFPOINT_V2_RE_match in Hm.
      destruct s as [| a [| b r]]; try discriminate.
      destruct (Ascii.eqb c "-"); [| discriminate].
      destruct (hex_digit a), (hex_digit b); try discriminate.
      injection Hm as <- <-.
      rewrite length_append.
      match goal with |- context [chr ?k] => pose proof (chr_length k) end.
      simpl in Hn. specialize (IH r ltac:(lia)). simpl. lia.
    + simpl in Hn. specialize (IH s ltac:(lia)). simpl. lia.
Qed.

(** X7. proofpoint_v2_decode leaves a text without hyphen and without
    underscore as it is; on a text without hyphen it only turns the
    underscores into slashes; and its output is never longer than its
    input. *)
Theorem X7_proofpoint_v2_plain_text `{L : PyLib} (text : string) :
  let t := Transform.mk "proofpoint_v2_decode" None in
  (~ In "-"%char (list_ascii_of_string text) ->
   Transform.call t text = Ok (replace_char "_" "/" text))
  /\ (~ In "-"%char (list_ascii_of_string text) ->
      ~ In "_"%char (list_ascii_of_string text) ->
      Transform.call t text = Ok text)
  /\ (forall out, Transform.call t text = Ok out ->
                  String.length out <= String.length text).
Proof.
  intros t.
  assert (Hcall : Transform.call t text
                  = Ok (replace_char "_" "/" (_PROOFPOINT_V2_RE_sub text)))
    by reflexivity.
  rewrite Hcall. split; [| split].
  - intros Hh. now rewrite sub_without_hyphen.
  - intros Hh Hu. rewrite sub_without_hyphen by exact Hh.
    now rewrite replace_char_absent_id.
  - intros out H. injection H as <-. rewrite replace_char_length.
    now apply (sub_length_bounded (String.length text)).
Qed.

Lemma X7_witness :
  Transform.call (L := PyRef_lib) (Transform.mk "proofpoint_v2_decode" None)
    "http://example.com/a?b=c"
  = Ok "http://example.com/a?b=c".
Proof.
  refine (proj1 (proj2 (X7_proofpoint_v2_plain_text (L := PyRef_lib)
                          "http://example.com/a?b=c")) _ _).
  - simpl. intros H. repeat destruct H as [H | H]; try discriminate H. exact H.
  - simpl. intros H. repeat destruct H as [H | H]; try discriminate H. exact H.
Defined.

(** ** Extract: what construction guarantees to the call *)

(** X8. An Extract that the constructor accepted is consistent with its
    source.  For query_param it has keys and no pattern, and its call on a
    parsed URL raises nothing.  For path_regex and url_regex it has no keys
    and holds the compiled form of its pattern, which has at least one
    group; so its call never lacks a compiled pattern: it gives nothing
    when the search (in the path, or in the whole URL) finds no match and
    group 1 of the match otherwise. *)
Theorem X8_Extract_constructed_is_consistent `{L : PyLib}
    (source : ExtractSource) (keys : list string) (pattern : option string)
    (select : ParamSelect) (e : Extract.t) :
  Extract.post_init source keys pattern select = Ok e ->
  e = Extract.mk source keys pattern select (Extract._compiled_pattern e)
  /\ match source with
     | QUERY_PARAM =>
         keys <> [] /\ pattern = None
         /\ forall url parsed,
              Extract.call e url (Some parsed)
              = Ok (Extract.select_value
                      (parse_qs (ParseResult.query parsed)) select keys)
     | _ =>
         keys = []
         /\ exists p c,
              pattern = Some p /\ re_compile p = Some c
              /\ Extract._compiled_pattern e = Some c
              /\ 1 <= re_groups c
              /\ forall url parsed,
                   Extract.call e url (Some parsed)
                   = match re_search c
                             (match source with
                              | PATH_REGEX => ParseResult.path parsed
                              | _ => url
                              end) with
                     | Some m => re_group m 1
                     | None => Ok None
                     end
     end.
Proof.
  unfold Extract.post_init.
  destruct source.
  - destruct keys as [| k keys]; [discriminate |].
    destruct pattern as [p |]; [discriminate |].
    intros H. injection H as <-. split; [reflexivity |].
    split; [discriminate | split; reflexivity].
  - destruct pattern as [p |]; [| discriminate].
    destruct keys as [| k keys]; [| discriminate].
    destruct (re_compile p) as [c |] eqn:Hc; [| discriminate].
    destruct (re_groups c <? 1)%nat eqn:Hg; [discriminate |].
    intros H. injection H as <-. split; [reflexivity |].
    split; [reflexivity |]. exists p, c. apply Nat.ltb_ge in Hg.
    repeat split; auto.
  - destruct pattern as [p |]; [| discriminate].
    destruct keys as [| k keys]; [| discriminate].
    destruct (re_compile p) as [c |] eqn:Hc; [| discriminate].
    destruct (re_groups c <? 1)%nat eqn:Hg; [discriminate |].
    intros H. injection H as <-. split; [reflexivity |].
    split; [reflexivity |]. exists p, c. apply Nat.ltb_ge in Hg.
    repeat split; auto.
Qed.

Lemma X8_witness :
  Extract.call (L := PyRef_lib) (Ex.query_param ["u"; "url"] LAST)
    "https://a.example/?url=x"
    (Some (ParseResult.mk "https" "a.example" "/" "" "url=x" ""))
  = Ok (Extract.select_value (@parse_qs PyRef_lib "url=x") LAST ["u"; "url"]).
Proof.
  refine (proj2 (proj2 (proj2 (X8_Extract_constructed_is_consistent
                                 (L := PyRef_lib) QUERY_PARAM ["u"; "url"]
                                 None LAST (Ex.query_param ["u"; "url"] LAST)
                                 _)))
            "https://a.example/?url=x"
            (ParseResult.mk "https" "a.example" "/" "" "url=x" "")).
  reflexivity.
Defined.

(** X9. The call of an Extract on a parsed URL reads one thing only: the
    query string for query_param, the path for path_regex, and the URL text
    (nothing of the parse result) for url_regex.  Two inputs that agree on
    it get the same answer. *)
Theorem X9_Extract_reads_one_component `{L : PyLib} (e : Extract.t)
    (u1 u2 : string) (p1 p2 : ParseResult.t) :
  (Extract.source e = QUERY_PARAM ->
   ParseResult.query p1 = ParseResult.query p2 ->
   Extract.call e u1 (Some p1) = Extract.call e u2 (Some p2))
  /\ (Extract.source e = PATH_REGEX ->
      ParseResult.path p1 = ParseResult.path p2 ->
      Extract.call e u1 (Some p1) = Extract.call e u2 (Some p2))
  /\ (Extract.source e = URL_REGEX ->
      Extract.call e u1 (Some p1) = Extract.call e u1 (Some p2)).
Proof.
  unfold Extract.call. simpl. split; [| split].
  - intros -> ->. reflexivity.
  - intros -> ->. reflexivity.
  - intros ->. reflexivity.
Qed.

Lemma X9_witness :
  Extract.call (L := PyRef_lib) (Ex.query_param ["u"] FIRST)
    "https://a.example/x?u=1"
    (Some (ParseResult.mk "https" "a.example" "/x" "" "u=1" ""))
  = Extract.call (L := PyRef_lib) (Ex.query_param ["u"] FIRST)
      "http://b.example/y?u=1#z"
      (Some (ParseResult.mk "http" "b.example" "/y" "" "u=1" "z")).
Proof.
  refine (proj1 (X9_Extract_reads_one_component (L := PyRef_lib)
                   (Ex.query_param ["u"] FIRST)
                   "https://a.example/x?u=1" "http://b.example/y?u=1#z"
                   (ParseResult.mk "https" "a.example" "/x" "" "u=1" "")
                   (ParseResult.mk "http" "b.example" "/y" "" "u=1" "z"))
            _ _); reflexivity.
Defined.

(** ** RuleSet: order, and growth of the list *)

Lemma call_rules_app `{L : PyLib} (rules1 rules2 : list Rule.t) (url : string)
    (parsed : ParseResult.t) :
  RuleSet.call_rules (rules1 ++ rules2) url parsed
  = match RuleSet.call_rules rules1 url parsed with
    | Ok None => RuleSet.call_rules rules2 url parsed
    | out => out
    end.
Proof.
  induction rules1 as [| r rules1 IH]; simpl; [reflexivity |].
  destruct (Rule.call r url (Some parsed)) as [[v |] | e]; simpl;
    [reflexivity | exact IH | reflexivity].
Qed.

(** X10. When the Filter of one Rule only can match a URL (the Filters of
    all the other Rules answer false), RuleSet.call gives exactly what that
    Rule gives, value, nothing or error, wherever the Rule stands in the
    list. *)
Theorem X10_only_matching_rule_decides `{L : PyLib}
    (before after : list Rule.t) (r : Rule.t) (url : string)
    (parsed : ParseResult.t) :
  urlparse url = Ok parsed ->
  (forall r', In r' (before ++ after) ->
              Filter.matches (Rule.filter r') url (Some parsed) = Ok false) ->
  RuleSet.call (RuleSet.mk (before ++ r :: after)) url
  = Rule.call r url (Some parsed).
Proof.
  intros Hu Hno.
  assert (Hnone : forall l, (forall r', In r' l -> In r' (before ++ after)) ->
                            RuleSet.call_rules l url parsed = Ok None).
  { intros l Hl. apply call_rules_None, List.Forall_forall.
    intros r' Hr'. apply Rule_call_no_match. auto. }
  rewrite (RuleSet_call_parsed _ url parsed Hu). simpl.
  rewrite call_rules_app, (Hnone before)
    by (intros r' Hr'; apply in_or_app; now left).
  simpl. destruct (Rule.call r url (Some parsed)) as [[v |] | e]; simpl;
    try reflexivity.
  apply Hnone. intros r' Hr'. apply in_or_app. now right.
Qed.

Lemma X10_witness :
  RuleSet.call (L := PyRef_lib) (RuleSet.mk [Ex.x1; Ex.plain; Ex.x2])
    "https://protect.example.com/?u=abc"
  = Rule.call (L := PyRef_lib) Ex.plain "https://protect.example.com/?u=abc"
      (Some (ParseResult.mk "https" "protect.example.com" "/" "" "u=abc" "")).
Proof.
  apply (X10_only_matching_rule_decides (L := PyRef_lib) [Ex.x1] [Ex.x2]
           Ex.plain "https://protect.example.com/?u=abc"
           (ParseResult.mk "https" "protect.example.com" "/" "" "u=abc" "")).
  - vm_compute. reflexivity.
  - intros r' [<- | [<- | []]]; vm_compute; reflexivity.
Defined.

(** X11. Rules added at the end of a RuleSet never change an outcome that
    was not "nothing": where the shorter list gives a value or raises, the
    longer list does the same; where the shorter list gives nothing, the
    longer list gives what the added rules give. *)
Theorem X11_appended_rules_only_fill_gaps `{L : PyLib}
    (rules extra : list Rule.t) (url : string) :
  (RuleSet.call (RuleSet.mk rules) url <> Ok None ->
   RuleSet.call (RuleSet.mk (rules ++ extra)) url
   = RuleSet.call (RuleSet.mk rules) url)
  /\ (RuleSet.call (RuleSet.mk rules) url = Ok None ->
      RuleSet.call (RuleSet.mk (rules ++ extra)) url
      = RuleSet.call (RuleSet.mk extra) url).
Proof.
  unfold RuleSet.call. simpl.
  destruct (urlparse url) as [parsed | e]; simpl.
  - rewrite call_rules_app. split.
    + intros H.
      destruct (RuleSet.call_rules rules url parsed) as [[v |] | e];
        [reflexivity | contradiction | reflexivity].
    + intros ->. reflexivity.
  - split; [reflexivity | discriminate].
Qed.

Lemma X11_witness :
  RuleSet.call (L := PyRef_lib) (RuleSet.mk ([Ex.plain] ++ [Ex.encoded]))
    "https://protect.example.com/?u=abc"
  = RuleSet.call (L := PyRef_lib) (RuleSet.mk [Ex.plain])
      "https://protect.example.com/?u=abc".
Proof.
  apply (proj1 (X11_appended_rules_only_fill_gaps (L := PyRef_lib)
                  [Ex.plain] [Ex.encoded]
                  "https://protect.example.com/?u=abc")).
  vm_compute. discriminate.
Defined.

(** ** is_protected_link *)

Lemma is_protected_link_Some `{L : PyLib} (base : result RuleSet.t)
    (rs : RuleSet.t) (url : string) :
  is_protected_link base url (Some rs)
  = let! parsed := urlparse url in
    Ok (existsb (fun r => Filter.matches_parsed (Rule.filter r) parsed)
          (RuleSet.rules rs)).
Proof.
  unfold is_protected_link. simpl.
  destruct (urlparse url) as [parsed | e]; simpl; [| reflexivity].
  apply any_filter_matches_existsb.
Qed.

Lemma existsb_map {A B : Type} (f : B -> bool) (g : A -> B) (l : list A) :
  existsb f (List.map g l) = existsb (fun x => f (g x)) l.
Proof. induction l as [| a l IH]; simpl; [reflexivity | now rewrite IH]. Qed.

Lemma existsb_Permutation {A : Type} (f : A -> bool) (l1 l2 : list A) :
  Permutation l1 l2 -> existsb f l1 = existsb f l2.
Proof.
  induction 1 as [| x l1 l2 _ IH | x y l | l1 l2 l3 _ IH1 _ IH2]; simpl.
  - reflexivity.
  - now rewrite IH.
  - now rewrite !orb_assoc, (orb_comm (f y)).
  - now rewrite IH1.
Qed.

(** X12. is_protected_link looks at the Filters only and runs no extraction
    and no Transform: two RuleSets with the same Filters in the same order
    get the same answer on every URL, and the only error it can raise is
    the one of urlparse on the URL (a decoding error never occurs). *)
Theorem X12_is_protected_link_filters_only `{L : PyLib}
    (base : result RuleSet.t) (rs1 rs2 : RuleSet.t) (url : string) :
  (List.map Rule.filter (RuleSet.rules rs1)
   = List.map Rule.filter (RuleSet.rules rs2) ->
   is_protected_link base url (Some rs1)
   = is_protected_link base url (Some rs2))
  /\ (forall e, is_protected_link base url (Some rs1) = Raise e
                <-> urlparse url = Raise e).
Proof.
  rewrite !is_protected_link_Some. split.
  - intros Hf. destruct (urlparse url) as [parsed | e]; simpl; [| reflexivity].
    f_equal.
    rewrite <- (existsb_map (fun F => Filter.matches_parsed F parsed)
                  Rule.filter (RuleSet.rules rs1)).
    rewrite <- (existsb_map (fun F => Filter.matches_parsed F parsed)
                  Rule.filter (RuleSet.rules rs2)).
    now rewrite Hf.
  - intros e. destruct (urlparse url) as [parsed | e']; simpl.
    + split; discriminate.
    + split; intros H; injection H as ->; reflexivity.
Qed.

Lemma X12_witness :
  is_protected_link (L := PyRef_lib) (Raise (ValueError "no rule files"))
    "https://protect.example.com/?u=abc" (Some (RuleSet.mk [Ex.encoded]))
  = is_protected_link (L := PyRef_lib) (Raise (ValueError "no rule files"))
      "https://protect.example.com/?u=abc" (Some (RuleSet.mk [Ex.last_u])).
Proof.
  apply (proj1 (X12_is_protected_link_filters_only (L := PyRef_lib)
                  (Raise (ValueError "no rule files"))
                  (RuleSet.mk [Ex.encoded]) (RuleSet.mk [Ex.last_u])
                  "https://protect.example.com/?u=abc")).
  reflexivity.
Defined.

(** X13. The answer of is_protected_link does not depend on the order of
    the Rules: two RuleSets whose lists are permutations of each other get
    the same answer on every URL (unlike RuleSet.call, where the first
    result wins). *)
Theorem X13_is_protected_link_any_order `{L : PyLib}
    (base : result RuleSet.t) (rs1 rs2 : RuleSet.t) (url : string) :
  Permutation (RuleSet.rules rs1) (RuleSet.rules rs2) ->
  is_protected_link base url (Some rs1) = is_protected_link base url (Some rs2).
Proof.
  intros Hp. rewrite !is_protected_link_Some.
  destruct (urlparse url) as [parsed | e]; simpl; [| reflexivity].
  f_equal. now apply existsb_Permutation.
Qed.

Lemma X13_witness :
  is_protected_link (L := PyRef_lib) (Raise (ValueError "no rule files"))
    "https://b.example.com/" (Some (RuleSet.mk [Ex.x1; Ex.x2]))
  = is_protected_link (L := PyRef_lib) (Raise (ValueError "no rule files"))
      "https://b.example.com/" (Some (RuleSet.mk [Ex.x2; Ex.x1])).
Proof.
  apply (X13_is_protected_link_any_order (L := PyRef_lib)
           (Raise (ValueError "no rule files"))
           (RuleSet.mk [Ex.x1; Ex.x2]) (RuleSet.mk [Ex.x2; Ex.x1])
           "https://b.example.com/").
  apply perm_swap.
Defined.

(** X14. A link that is_protected_link reports as not protected is
    unwrapped to nothing, without error: if is_protected_link answers false
    then unsafe_link, with the same rule set argument, gives nothing.  With
    no rule set given both use the built-in one, and fail alike when it
    cannot be loaded. *)
Theorem X14_unprotected_link_gives_nothing `{L : PyLib}
    (base : result RuleSet.t) (url : string) (rule_set : option RuleSet.t) :
  (is_protected_link base url rule_set = Ok false ->
   unsafe_link base url rule_set = Ok None)
  /\ (forall e, base = Raise e ->
                is_protected_link base url None = Raise e
                /\ unsafe_link base url None = Raise e).
Proof.
  split.
  - unfold is_protected_link, unsafe_link.
    destruct (rule_set_or_base base rule_set) as [rs | e]; simpl;
      [| discriminate].
    unfold RuleSet.call.
    destruct (urlparse url) as [parsed | e]; simpl; [| discriminate].
    rewrite any_filter_matches_existsb. intros H. injection H as H.
    apply call_rules_None, List.Forall_forall. intros r Hr.
    apply Rule_call_no_match. rewrite Filter_matches_Some. f_equal.
    destruct (Filter.matches_parsed (Rule.filter r) parsed) eqn:Hm;
      [| reflexivity].
    assert (Ht : existsb
                   (fun r => Filter.matches_parsed (Rule.filter r) parsed)
                   (RuleSet.rules rs) = true)
      by (apply existsb_exists; eauto).
    congruence.
  - intros e ->. split; reflexivity.
Qed.

Lemma X14_witness :
  unsafe_link (L := PyRef_lib) (Raise (ValueError "no rule files"))
    "http://example.com" (Some Ex.tested_rules)
  = Ok None.
Proof.
  apply (proj1 (X14_unprotected_link_gives_nothing (L := PyRef_lib)
                  (Raise (ValueError "no rule files")) "http://example.com"
                  (Some Ex.tested_rules))).
  vm_compute. reflexivity.
Defined.

(** ** _to_matchers *)

Lemma matchers_of_list_Ok `{L : PyLib} (vs : list string)
    (ms : list Matcher.t) :
  matchers_of_list vs = Ok ms ->
  List.map Matcher.raw ms = vs
  /\ Forall2 (fun v m => Matcher.post_init v = Ok m) vs ms.
Proof.
  revert ms. induction vs as [| v vs IH]; intros ms; simpl.
  - intros H. injection H as <-. split; [reflexivity | constructor].
  - intros H. apply bind_Ok in H. destruct H as (m & Hm & H).
    apply bind_Ok in H. destruct H as (ms' & Hms & H). injection H as <-.
    destruct (IH ms' Hms) as [Hraw Hall].
    pose proof (Matcher_post_init_Ok v m Hm) as (_ & Hr & _).
    simpl. rewrite Hr, Hraw. split; [reflexivity | now constructor].
Qed.

Lemma matchers_of_list_empty_pattern `{L : PyLib} (vs : list string) :
  In "" vs -> exists e, matchers_of_list vs = Raise e.
Proof.
  induction vs as [| v vs IH]; simpl; [tauto |].
  intros [-> | Hin].
  - eexists. reflexivity.
  - destruct (Matcher.post_init v) as [m | e]; simpl; [| eauto].
    destruct (IH Hin) as [e ->]. simpl. eauto.
Qed.

(** X15. _to_matchers gives one Matcher per pattern, in the order given,
    each holding its pattern as raw; a single string counts as the list of
    that one string; and one empty pattern anywhere in the list makes the
    whole call fail instead of being skipped. *)
Theorem X15_to_matchers_one_per_pattern `{L : PyLib} (vs : list string) :
  (forall ms,
     _to_matchers (inr vs) = Ok ms ->
     List.map Matcher.raw ms = vs
     /\ Forall2 (fun v m => Matcher.post_init v = Ok m) vs ms)
  /\ (forall s, _to_matchers (inl s) = _to_matchers (inr [s]))
  /\ (In "" vs -> exists e, _to_matchers (inr vs) = Raise e).
Proof.
  split; [| split].
  - intros ms. apply matchers_of_list_Ok.
  - reflexivity.
  - apply matchers_of_list_empty_pattern.
Qed.

Lemma X15_witness :
  exists e,
    _to_matchers (L := PyRef_lib) (inr ["a.example.com"; ""; "b.example.com"])
    = Raise e.
Proof.
  apply (proj2 (proj2 (X15_to_matchers_one_per_pattern (L := PyRef_lib)
                         ["a.example.com"; ""; "b.example.com"]))).
  simpl. tauto.
Defined.

(** ** Loading from definitions *)

Lemma load_bind_Loaded {A B : Type} (c : loaded A) (k : A -> loaded B) (b : B) :
  load_bind c k = Loaded b <-> exists a, c = Loaded a /\ k a = Loaded b.
Proof.
  destruct c as [a | e]; simpl; split.
  - intros H. eauto.
  - intros (a' & Ha & Hk). injection Ha as <-. exact Hk.
  - discriminate.
  - intros (a' & Ha & _). discriminate.
Qed.

Lemma of_result_Loaded {A : Type} (c : result A) (a : A) :
  of_result c = Loaded a <-> c = Ok a.
Proof.
  destruct c as [a' | e]; simpl; split; intros H; try discriminate;
    injection H as <-; reflexivity.
Qed.

Lemma getitem_Loaded {A : Type} (key : string) (held : option A) (a : A) :
  getitem key held = Loaded a <-> held = Some a.
Proof.
  destruct held as [a' |]; simpl; split; intros H; try discriminate;
    injection H as <-; reflexivity.
Qed.

Lemma load_all_Loaded {A B : Type} (f : A -> loaded B) (xs : list A)
    (ys : list B) :
  load_all f xs = Loaded ys <-> Forall2 (fun x y => f x = Loaded y) xs ys.
Proof.
  revert ys. induction xs as [| x xs IH]; intros ys; simpl.
  - split.
    + intros H. injection H as <-. constructor.
    + intros H. inversion H. reflexivity.
  - rewrite load_bind_Loaded. split.
    + intros (y & Hy & H). apply load_bind_Loaded in H.
      destruct H as (ys' & Hys & H). injection H as <-.
      constructor; [exact Hy | now apply IH].
    + intros H. inversion H as [| x' y xs' ys' Hy Hys]; subst.
      exists y. split; [exact Hy |]. apply load_bind_Loaded.
      exists ys'. split; [now apply IH | reflexivity].
Qed.

Lemma load_all_Failed {A B : Type} (f : A -> loaded B) (xs : list A) :
  (exists x e, In x xs /\ f x = Failed e) ->
  exists e, load_all f xs = Failed e.
Proof.
  induction xs as [| x xs IH]; simpl.
  - intros (x & e & [] & _).
  - intros (x' & e & [<- | Hin] & Hf).
    + rewrite Hf. simpl. eauto.
    + destruct (f x) as [y | e']; simpl; [| eauto].
      destruct IH as [e'' ->]; [eauto |]. simpl. eauto.
Qed.

(** The patterns of a [str | list[str]] value *)
Lemma to_matchers_raw `{L : PyLib} (value : string + list string)
    (ms : list Matcher.t) :
  _to_matchers value = Ok ms ->
  List.map Matcher.raw ms
  = match value with
    | inl s => [s]
    | inr vs => vs
    end.
Proof.
  destruct value as [s | vs]; intros H; now apply matchers_of_list_Ok in H.
Qed.

(** X16. Filter.from_dict needs the key hostname: without it the call
    raises KeyError, whatever else the mapping holds, and with an empty
    list under it the constructor refuses.  When it succeeds, the Filter
    holds one Matcher per hostname pattern and per path pattern, in order,
    and a mapping without the key path gives a Filter without path
    Matchers, as an empty list under path does. *)
Theorem X16_Filter_from_dict `{L : PyLib}
    (data : gmap string (string + list string)) :
  (data !! "hostname" = None ->
   Filter_from_dict data = Failed (KeyError "hostname"))
  /\ (data !! "hostname" = Some (inr []) ->
      exists e, Filter_from_dict data = Failed e)
  /\ (forall F,
        Filter_from_dict data = Loaded F ->
        Filter.hostname F <> []
        /\ (exists h,
              data !! "hostname" = Some h
              /\ List.map Matcher.raw (Filter.hostname F)
                 = match h with
                   | inl s => [s]
                   | inr vs => vs
                   end)
        /\ List.map Matcher.raw (Filter.path F)
           = match data !! "path" with
             | Some (inl s) => [s]
             | Some (inr vs) => vs
             | None => []
             end).
Proof.
  unfold Filter_from_dict. split; [| split].
  - intros ->. reflexivity.
  - intros ->. simpl.
    destruct (data !! "path") as [p |]; simpl.
    + destruct (_to_matchers p) as [ms | e]; simpl; eauto.
    + eauto.
  - intros F H. apply load_bind_Loaded in H. destruct H as (h & Hh & H).
    apply getitem_Loaded in Hh.
    apply load_bind_Loaded in H. destruct H as (hs & Hhs & H).
    apply of_result_Loaded in Hhs.
    apply load_bind_Loaded in H. destruct H as (ps & Hps & H).
    apply of_result_Loaded in H. unfold Filter.post_init in H.
    destruct hs as [| m hs]; [discriminate |]. injection H as <-.
    cbn [Filter.hostname Filter.path].
    split; [discriminate |]. split.
    + exists h. split; [exact Hh |]. now apply to_matchers_raw.
    + destruct (data !! "path") as [p |].
      * apply of_result_Loaded in Hps. apply to_matchers_raw in Hps.
        rewrite Hps. now destruct p.
      * injection Hps as <-. reflexivity.
Qed.

Lemma X16_witness :
  Filter_from_dict (L := PyRef_lib) {[ "path" := inl "/v2/url" ]}
  = Failed (KeyError "hostname").
Proof.
  apply (proj1 (X16_Filter_from_dict (L := PyRef_lib)
                  {[ "path" := inl "/v2/url" ]})).
  vm_compute. reflexivity.
Defined.

Lemma Transform_post_init_name (name : string) (value : option string) (t : Transform.t) :
  Transform.post_init name value = Ok t -> Transform.name t = name.
Proof.
  unfold Transform.post_init.
  repeat match goal with
         | |- context [if ?b then _ else _] => destruct b
         end; try discriminate.
  intros H. injection H as <-. reflexivity.
Qed.

(** X17. Transform.from_dict reads a bare name as that name without value,
    and of a mapping only its first item: the items after it are ignored,
    and an empty mapping raises StopIteration rather than a ValueError.  A
    Transform that was loaded can fail only while decoding base64. *)
Theorem X17_Transform_from_dict `{L : PyLib} (data : TransformData) :
  (forall name,
     Transform_from_dict (inl name) = Transform_from_dict (inr [(name, None)]))
  /\ (forall name value rest,
        Transform_from_dict (inr ((name, value) :: rest))
        = Transform_from_dict (inr [(name, value)]))
  /\ Transform_from_dict (inr []) = Failed StopIteration
  /\ (forall t,
        Transform_from_dict data = Loaded t ->
        forall text e,
          Transform.call t text = Raise e ->
          Transform.name t = "base64_decode"
          /\ (b64decode text = Raise e
              \/ exists b, b64decode text = Ok b /\ bytes_decode b = Raise e)).
Proof.
  split; [reflexivity |]. split; [reflexivity |]. split; [reflexivity |].
  intros t Hload text e Hcall.
  assert (Hnew : exists name value, Transform.post_init name value = Ok t).
  { destruct data as [name | [| [name value] rest]]; simpl in Hload;
      try discriminate; apply of_result_Loaded in Hload; eauto. }
  destruct Hnew as (name & value & Hnew).
  destruct (Transform_call_Raise name value t text e Hnew Hcall) as [Hn Hd].
  split; [| exact Hd].
  apply Transform_post_init_name in Hnew. congruence.
Qed.

Lemma X17_witness :
  Transform.name Ex.base64_decode = "base64_decode"
  /\ (b64decode (PyLib := PyRef_lib) "abc"
      = Raise (BinasciiError "Incorrect padding")
      \/ exists b,
           b64decode (PyLib := PyRef_lib) "abc" = Ok b
           /\ bytes_decode (PyLib := PyRef_lib) b
              = Raise (BinasciiError "Incorrect padding")).
Proof.
  apply (proj2 (proj2 (proj2 (X17_Transform_from_dict (L := PyRef_lib)
                                (inr [("base64_decode", None);
                                      ("prepend", Some "x")]))))
           Ex.base64_decode eq_refl "abc"
           (BinasciiError "Incorrect padding")).
  vm_compute. reflexivity.
Defined.

Lemma Extract_post_init_fields `{L : PyLib} (source : ExtractSource)
    (keys : list string) (pattern : option string) (select : ParamSelect)
    (e : Extract.t) :
  Extract.post_init source keys pattern select = Ok e ->
  Extract.source e = source /\ Extract.keys e = keys
  /\ Extract.pattern e = pattern /\ Extract.select e = select.
Proof.
  unfold Extract.post_init.
  destruct source, keys as [| k keys], pattern as [p |]; try discriminate;
    try (intros H; injection H as <-; auto);
    destruct (re_compile p) as [c |]; try discriminate;
    destruct (re_groups c <? 1)%nat; try discriminate;
    intros H; injection H as <-; auto.
Qed.

(** X18. Extract.from_dict needs the key from: without it the call raises
    KeyError before anything else is looked at.  When it succeeds the
    source is the member of ExtractSource named under from, the keys are
    those under keys (none when the key is absent), and the selection is
    the member of ParamSelect named under select, or FIRST when select is
    absent.  So a definition with from: query_param, a non-empty list of
    keys and nothing else loads as the Extract that takes the first value
    of the first key present. *)
Theorem X18_Extract_from_dict `{L : PyLib} (data : ExtractData.t) :
  (ExtractData.from data = None ->
   Extract_from_dict data = Failed (KeyError "from"))
  /\ (forall e,
        Extract_from_dict data = Loaded e ->
        (exists v, ExtractData.from data = Some v
                   /\ ExtractSource_of_value v = Ok (Extract.source e))
        /\ Extract.keys e = default [] (ExtractData.keys data)
        /\ (ExtractData.select data = None -> Extract.select e = FIRST)
        /\ (forall v, ExtractData.select data = Some v ->
                      ParamSelect_of_value v = Ok (Extract.select e)))
  /\ (forall k ks,
        data = ExtractData.mk (Some "query_param") (Some (k :: ks)) None None ->
        Extract_from_dict data
        = Loaded (Extract.mk QUERY_PARAM (k :: ks) None FIRST None)).
Proof.
  split; [| split].
  - unfold Extract_from_dict. intros ->. reflexivity.
  - intros e H. unfold Extract_from_dict in H.
    apply load_bind_Loaded in H. destruct H as (v & Hv & H).
    apply getitem_Loaded in Hv.
    apply load_bind_Loaded in H. destruct H as (src & Hsrc & H).
    apply of_result_Loaded in Hsrc.
    apply load_bind_Loaded in H. destruct H as (sel & Hsel & H).
    apply of_result_Loaded, Extract_post_init_fields in H.
    destruct H as (H1 & H2 & _ & H4). subst src sel.
    split; [eauto |]. split; [exact H2 |]. split.
    + intros Hnone. rewrite Hnone in Hsel. now injection Hsel as <-.
    + intros v' Hsome. rewrite Hsome in Hsel. now apply of_result_Loaded.
  - intros k ks ->. reflexivity.
Qed.

Lemma X18_witness :
  Extract_from_dict (L := PyRef_lib) ExX.extract_data
  = Loaded (Extract.mk (L := PyRef_lib) QUERY_PARAM ["u"] None FIRST None).
Proof.
  apply (proj2 (proj2 (X18_Extract_from_dict (L := PyRef_lib)
                         ExX.extract_data)) "u" []).
  reflexivity.
Defined.

Lemma Rule_from_dict_Loaded `{L : PyLib} (d : RuleData.t) (r : Rule.t) :
  Rule_from_dict d = Loaded r ->
  RuleData.name d = Some (Rule.name r)
  /\ Rule.name r <> ""
  /\ (exists f, RuleData.filter d = Some f
                /\ Filter_from_dict f = Loaded (Rule.filter r))
  /\ (exists e, RuleData.extract d = Some e
                /\ Extract_from_dict e = Loaded (Rule.extract r))
  /\ load_all Transform_from_dict (default [] (RuleData.pre_extract d))
     = Loaded (Rule.pre_extract r)
  /\ load_all Transform_from_dict (default [] (RuleData.post_extract d))
     = Loaded (Rule.post_extract r).
Proof.
  unfold Rule_from_dict. intros H.
  apply load_bind_Loaded in H. destruct H as (name & Hname & H).
  apply getitem_Loaded in Hname.
  apply load_bind_Loaded in H. destruct H as (f & Hf & H).
  apply getitem_Loaded in Hf.
  apply load_bind_Loaded in H. destruct H as (F & HF & H).
  apply load_bind_Loaded in H. destruct H as (e & He & H).
  apply getitem_Loaded in He.
  apply load_bind_Loaded in H. destruct H as (E & HE & H).
  apply load_bind_Loaded in H. destruct H as (pre & Hpre & H).
  apply load_bind_Loaded in H. destruct H as (post & Hpost & H).
  apply of_result_Loaded in H. unfold Rule.post_init in H.
  destruct (String.eqb_spec name "") as [-> | Hne]; [discriminate |].
  injection H as <-. simpl. eauto 10.
Qed.

(** X19. RuleSet.from_dict skips no rule definition.  When it succeeds
    there is exactly one Rule per definition under rules, in order, each
    the one its definition loads as, with the name its definition gives;
    the names are non-empty and pairwise distinct and there is at least one
    Rule.  When one definition of the list fails to load, or the key rules
    is missing, the whole call fails. *)
Theorem X19_RuleSet_from_dict_skips_nothing `{L : PyLib}
    (data : gmap string (list RuleData.t)) :
  (forall rs,
     RuleSet_from_dict data = Loaded rs ->
     exists defs,
       data !! "rules" = Some defs
       /\ Forall2 (fun d r => Rule_from_dict d = Loaded r) defs
            (RuleSet.rules rs)
       /\ List.map RuleData.name defs
          = List.map (fun r => Some (Rule.name r)) (RuleSet.rules rs)
       /\ NoDup (List.map Rule.name (RuleSet.rules rs))
       /\ RuleSet.rules rs <> []
       /\ Forall (fun r => Rule.name r <> "") (RuleSet.rules rs))
  /\ (forall defs d e,
        data !! "rules" = Some defs -> In d defs ->
        Rule_from_dict d = Failed e ->
        exists e', RuleSet_from_dict data = Failed e')
  /\ (data !! "rules" = None ->
      RuleSet_from_dict data = Failed (KeyError "rules")).
Proof.
  split; [| split].
  - intros rs H. unfold RuleSet_from_dict in H.
    apply load_bind_Loaded in H. destruct H as (defs & Hdefs & H).
    apply getitem_Loaded in Hdefs.
    apply load_bind_Loaded in H. destruct H as (rules & Hrules & H).
    apply of_result_Loaded, RuleSet_post_init_Ok in H.
    destruct H as (-> & Hne & Hnd). simpl.
    apply load_all_Loaded in Hrules.
    exists defs. split; [exact Hdefs |]. split; [exact Hrules |].
    split; [| split; [exact Hnd | split; [exact Hne |]]].
    + clear Hne Hnd Hdefs.
      induction Hrules as [| d r defs rules Hd _ IH]; simpl; [reflexivity |].
      apply Rule_from_dict_Loaded in Hd. destruct Hd as (Hn & _).
      now rewrite Hn, IH.
    + clear Hne Hnd Hdefs.
      induction Hrules as [| d r defs rules Hd _ IH]; constructor;
        [| exact IH].
      apply Rule_from_dict_Loaded in Hd. tauto.
  - intros defs d e Hdefs Hin Hfail. unfold RuleSet_from_dict.
    rewrite Hdefs. simpl.
    destruct (load_all_Failed Rule_from_dict defs) as [e' ->]; [eauto |].
    simpl. eauto.
  - unfold RuleSet_from_dict. intros ->. reflexivity.
Qed.

Lemma X19_witness :
  exists e',
    RuleSet_from_dict (L := PyRef_lib) (ExX.rules_data ["a"; ""; "b"])
    = Failed e'.
Proof.
  apply (proj1 (proj2 (X19_RuleSet_from_dict_skips_nothing (L := PyRef_lib)
                         (ExX.rules_data ["a"; ""; "b"])))
           (List.map ExX.rule_data ["a"; ""; "b"]) (ExX.rule_data "")
           (Constructing (ValueError "rule name must not be empty"))).
  - reflexivity.
  - simpl. tauto.
  - reflexivity.
Defined.

(** X20. A rule definition without pre_extract and post_extract (the keys
    absent, or empty lists under them) loads as a Rule that hands back what
    its Extract finds, unchanged: on a parsed URL it gives nothing when the
    Filter does not match and the outcome of the Extract on that same parse
    result when it does. *)
Theorem X20_Rule_without_transforms `{L : PyLib} (d : RuleData.t) (r : Rule.t) :
  default [] (RuleData.pre_extract d) = [] ->
  default [] (RuleData.post_extract d) = [] ->
  Rule_from_dict d = Loaded r ->
  forall url parsed,
    Rule.call r url (Some parsed)
    = if Filter.matches_parsed (Rule.filter r) parsed
      then Extract.call (Rule.extract r) url (Some parsed)
      else Ok None.
Proof.
  intros Hpre Hpost Hload url parsed.
  apply Rule_from_dict_Loaded in Hload.
  destruct Hload as (_ & _ & _ & _ & Hp & Hq).
  rewrite Hpre in Hp. rewrite Hpost in Hq. simpl in Hp, Hq.
  injection Hp as Hp. injection Hq as Hq.
  rewrite Rule_call_Some, <- Hp, <- Hq.
  destruct (Filter.matches_parsed (Rule.filter r) parsed); simpl;
    [| reflexivity].
  destruct (Extract.call (Rule.extract r) url (Some parsed)) as [[v |] | e];
    reflexivity.
Qed.

Lemma X20_witness :
  Rule.call (L := PyRef_lib) Ex.plain "https://protect.example.com/?u=abc"
    (Some (ParseResult.mk "https" "protect.example.com" "/" "" "u=abc" ""))
  = if Filter.matches_parsed (L := PyRef_lib) (Rule.filter Ex.plain)
         (ParseResult.mk "https" "protect.example.com" "/" "" "u=abc" "")
    then Extract.call (L := PyRef_lib) (Rule.extract Ex.plain)
           "https://protect.example.com/?u=abc"
           (Some (ParseResult.mk "https" "protect.example.com" "/" ""
                    "u=abc" ""))
    else Ok None.
Proof.
  refine (X20_Rule_without_transforms (L := PyRef_lib)
            (RuleData.mk (Some "plain") (Some ExX.filter_data)
               (Some ExX.extract_data) None (Some []))
            Ex.plain _ _ _
            "https://protect.example.com/?u=abc"
            (ParseResult.mk "https" "protect.example.com" "/" "" "u=abc" "")).
  - reflexivity.
  - reflexivity.
  - reflexivity.
Defined.

(** ** Rule: which parse result the extraction uses *)

(** X21. When a Rule has pre_extract Transforms, the parse result handed to
    Rule.call serves the Filter only: the extraction parses the rewritten
    URL afresh, so two parse results on which the Filter agrees give the
    same outcome.  When it has none, the extraction of a query_param or
    path_regex Rule works on the parse result handed over, and the URL text
    plays no part. *)
Theorem X21_Rule_parse_result_use `{L : PyLib} (r : Rule.t) (u1 u2 : string)
    (p1 p2 : ParseResult.t) :
  (Rule.pre_extract r <> [] ->
   Filter.matches_parsed (Rule.filter r) p1
   = Filter.matches_parsed (Rule.filter r) p2 ->
   Rule.call r u1 (Some p1) = Rule.call r u1 (Some p2))
  /\ (Rule.pre_extract r = [] ->
      Extract.source (Rule.extract r) <> URL_REGEX ->
      Rule.call r u1 (Some p1) = Rule.call r u2 (Some p1)).
Proof.
  rewrite !Rule_call_Some. split.
  - intros Hpre Hm. rewrite Hm.
    destruct (Rule.pre_extract r) as [| t ts]; [contradiction | reflexivity].
  - intros Hpre Hsrc. rewrite Hpre. simpl.
    destruct (Filter.matches_parsed (Rule.filter r) p1); simpl;
      [| reflexivity].
    assert (He : Extract.call (Rule.extract r) u1 (Some p1)
                 = Extract.call (Rule.extract r) u2 (Some p1)).
    { unfold Extract.call. simpl.
      destruct (Extract.source (Rule.extract r));
        [reflexivity | reflexivity | contradiction]. }
    now rewrite He.
Qed.

Lemma X21_witness :
  Rule.call (L := PyRef_lib) Ex.plain "https://protect.example.com/?u=abc"
    (Some (ParseResult.mk "https" "protect.example.com" "/" "" "u=abc" ""))
  = Rule.call (L := PyRef_lib) Ex.plain "anything else"
      (Some (ParseResult.mk "https" "protect.example.com" "/" "" "u=abc" "")).
Proof.
  apply (proj2 (X21_Rule_parse_result_use (L := PyRef_lib) Ex.plain
                  "https://protect.example.com/?u=abc" "anything else"
                  (ParseResult.mk "https" "protect.example.com" "/" ""
                     "u=abc" "")
                  (ParseResult.mk "https" "protect.example.com" "/" ""
                     "u=abc" ""))).
  - reflexivity.
  - discriminate.
Defined.
